(** * Growth marketing audit: the audit pipeline of [audit_mvp.py]

    A shallow embedding of the prompt-and-parse step ([build_prompt],
    [analyze]) and of the PDF renderer ([sanitize_filename], [build_pdf]),
    with the properties the design note states about them.

    Python values are modelled as follows.
    - A [str] is a list of Unicode code points ([pystr]).
    - A value produced by [json.loads] is a [pyval]; a [dict] is an
      association list in insertion order.
    - A raised exception is the left injection of [result].
    - The calls made on the [FPDF] object are recorded in order
      ([pdf_call]); the file written by [pdf.output] holds that record. *)

From Stdlib Require Import ZArith NArith QArith String Ascii.
From stdpp Require Import base option list gmap.

Local Open Scope N_scope.
Local Open Scope list_scope.

(** ** Strings *)

Abbreviation pystr := (list N).

Definition chr (a : ascii) : N := N_of_ascii a.

(** An ASCII literal of the source as a [pystr]. *)
Definition py (s : string) : pystr := chr <$> list_ascii_of_string s.

Arguments chr : simpl never.
Arguments py : simpl never.

(** [a in b] for two [str]: [a] occurs in [b] as a contiguous run. *)
Definition occurs_in (a b : pystr) : Prop := ∃ pre post, b = pre ++ a ++ post.

(** [sep.join(parts)] *)
Fixpoint join (sep : pystr) (parts : list pystr) : pystr :=
  match parts with
  | [] => []
  | [p] => p
  | p :: rest => p ++ sep ++ join sep rest
  end.

(** ** Exceptions and values *)

Inductive exn :=
| JSONDecodeError
| RecursionError
| TypeError
| AttributeError
| APIError.

(** Every constructor of [exn] is a subclass of Python's [Exception]. *)
Definition result (A : Type) : Type := exn + A.

Definition ok {A} (a : A) : result A := inr a.
Definition raise {A} (e : exn) : result A := inl e.

Definition bind {A B} (m : result A) (k : A → result B) : result B :=
  match m with
  | inl e => inl e
  | inr a => k a
  end.

Notation "'let!' x ':=' m 'in' k" := (bind m (λ x, k))
  (at level 10, x name, m at level 100, k at level 200).

(** [try: body except Exception: handler] *)
Definition try_except {A} (body handler : result A) : result A :=
  match body with
  | inl _ => handler
  | inr a => inr a
  end.

#[warnings="-register-all"]
Inductive pyval :=
| PNone
| PBool (b : bool)
| PInt (z : Z)
| PFloat (literal : pystr)
| PStr (s : pystr)
| PList (items : list pyval)
| PDict (entries : list (pystr * pyval)).

Definition pystr_eqb (a b : pystr) : bool := bool_decide (a = b).

(** [d.get(key)] on a dict kept as an association list. *)
Fixpoint dict_lookup {V} (d : list (pystr * V)) (key : pystr) : option V :=
  match d with
  | [] => None
  | (k, v) :: rest => if pystr_eqb k key then Some v else dict_lookup rest key
  end.

(** [d.get(key, dflt)] *)
Definition dict_get {V} (d : list (pystr * V)) (key : pystr) (dflt : V) : V :=
  default dflt (dict_lookup d key).

(** [d[key] = v]: an existing key keeps its position, a new one goes last. *)
Fixpoint dict_set {V} (d : list (pystr * V)) (key : pystr) (v : V) : list (pystr * V) :=
  match d with
  | [] => [(key, v)]
  | (k, w) :: rest =>
      if pystr_eqb k key then (k, v) :: rest else (k, w) :: dict_set rest key v
  end.

(** ** The pattern [(\{.*\})] under [re.DOTALL] *)

Definition lbrace : N := chr "{".
Definition rbrace : N := chr "}".

(** The tail [.*\}] tried at the head of [s]: the greedy star first takes
    the next character, and gives it back only when the rest cannot end
    in a closing brace. The result is the text matched. *)
Fixpoint greedy_to_rbrace (s : pystr) : option pystr :=
  match s with
  | [] => None
  | c :: rest =>
      match greedy_to_rbrace rest with
      | Some m => Some (c :: m)
      | None => if c =? rbrace then Some [c] else None
      end
  end.

(** [re.search(r"(\{.*\})", s, re.DOTALL)], giving [group(1)]: the
    pattern is tried at each position from the left. *)
Fixpoint re_search_braces (s : pystr) : option pystr :=
  match s with
  | [] => None
  | c :: rest =>
      if c =? lbrace then
        match greedy_to_rbrace rest with
        | Some m => Some (c :: m)
        | None => re_search_braces rest
        end
      else re_search_braces rest
  end.

(** ** The [json] module

    [Json.loads] follows [json.loads] with its default arguments: the
    grammar of [json.scanner] and [json.decoder] (strict strings, the
    constants [NaN], [Infinity] and [-Infinity] accepted). A float keeps
    its literal. [Json.dumps] follows [json.dumps] on a dict of strings
    ([ensure_ascii] on, separators [", "] and [": "]). *)
Module Json.

Definition quote : N := 34.
Definition backslash : N := 92.

Definition is_ws (c : N) : bool :=
  (c =? 32) || (c =? 9) || (c =? 10) || (c =? 13).

Fixpoint skip_ws (s : pystr) : pystr :=
  match s with
  | c :: rest => if is_ws c then skip_ws rest else s
  | [] => []
  end.

Definition is_digit (c : N) : bool := (48 <=? c) && (c <=? 57).

Fixpoint span_digits (s : pystr) : pystr * pystr :=
  match s with
  | c :: rest =>
      if is_digit c then let '(ds, r) := span_digits rest in (c :: ds, r)
      else ([], s)
  | [] => ([], [])
  end.

Definition hex_val (c : N) : option N :=
  if is_digit c then Some (c - 48)
  else if (97 <=? c) && (c <=? 102) then Some (c - 87)
  else if (65 <=? c) && (c <=? 70) then Some (c - 55)
  else None.

(** [_decode_uXXXX]: four hexadecimal digits. *)
Definition decode_uXXXX (s : pystr) : option (N * pystr) :=
  match s with
  | a :: b :: c :: d :: rest =>
      match hex_val a, hex_val b, hex_val c, hex_val d with
      | Some a, Some b, Some c, Some d =>
          Some (((a * 16 + b) * 16 + c) * 16 + d, rest)
      | _, _, _, _ => None
      end
  | _ => None
  end.

(** The table [BACKSLASH] of the decoder. *)
Definition unescape (c : N) : option N :=
  if c =? quote then Some quote
  else if c =? backslash then Some backslash
  else if c =? chr "/" then Some (chr "/")
  else if c =? chr "b" then Some 8
  else if c =? chr "f" then Some 12
  else if c =? chr "n" then Some 10
  else if c =? chr "r" then Some 13
  else if c =? chr "t" then Some 9
  else None.

Definition is_high_surrogate (u : N) : bool := (0xd800 <=? u) && (u <=? 0xdbff).
Definition is_low_surrogate (u : N) : bool := (0xdc00 <=? u) && (u <=? 0xdfff).

(** A [\uXXXX] escape whose digits start [s]; a high surrogate takes a
    following [\uYYYY] low surrogate with it. *)
Definition unicode_escape (s : pystr) : option (N * pystr) :=
  match decode_uXXXX s with
  | None => None
  | Some (uni, rest) =>
      let alone := Some (uni, rest) in
      if is_high_surrogate uni then
        match rest with
        | b :: u :: rest2 =>
            if (b =? backslash) && (u =? chr "u") then
              match decode_uXXXX rest2 with
              | None => None
              | Some (uni2, rest3) =>
                  if is_low_surrogate uni2 then
                    Some (0x10000 + N.lor (N.shiftl (uni - 0xd800) 10) (uni2 - 0xdc00),
                          rest3)
                  else alone
              end
            else alone
        | _ => alone
        end
      else alone
  end.

(** [scanstring(s, end, strict=True)], [s] starting after the opening
    quote: the decoded string and the text after the closing quote. *)
Fixpoint scanstring_from (fuel : nat) (s : pystr) : result (pystr * pystr) :=
  match fuel with
  | O => raise JSONDecodeError
  | S fuel =>
      match s with
      | [] => raise JSONDecodeError
      | c :: rest =>
          if c =? quote then ok ([], rest)
          else if c =? backslash then
            match rest with
            | [] => raise JSONDecodeError
            | e :: rest2 =>
                if e =? chr "u" then
                  match unicode_escape rest2 with
                  | None => raise JSONDecodeError
                  | Some (uni, rest3) =>
                      let! r := scanstring_from fuel rest3 in
                      ok (uni :: r.1, r.2)
                  end
                else
                  match unescape e with
                  | None => raise JSONDecodeError
                  | Some ch =>
                      let! r := scanstring_from fuel rest2 in
                      ok (ch :: r.1, r.2)
                  end
            end
          else if c <? 32 then raise JSONDecodeError
          else
            let! r := scanstring_from fuel rest in
            ok (c :: r.1, r.2)
      end
  end.

Definition scanstring (s : pystr) : result (pystr * pystr) :=
  scanstring_from (length s) s.

Definition digit_value (ds : pystr) : Z :=
  foldl (λ acc c, 10 * acc + Z.of_N (c - 48))%Z 0%Z ds.

(** [NUMBER_RE] matched at the head of [s]: an optional minus sign, then
    a single 0 or a digit string without leading 0; an optional fraction
    (a period and at least one digit); an optional exponent (e or E, an
    optional sign, at least one digit). A literal with neither fraction
    nor exponent is an [int], any other a [float]. Returns the value and
    the text after it. *)
Definition match_number (s : pystr) : option (pyval * pystr) :=
  let '(sign, s1) :=
    match s with
    | c :: r => if c =? chr "-" then ([c], r) else ([], s)
    | [] => ([], s)
    end in
  let integer :=
    match s1 with
    | c :: r =>
        if c =? chr "0" then Some ([c], r)
        else if is_digit c then let '(ds, r2) := span_digits r in Some (c :: ds, r2)
        else None
    | [] => None
    end in
  match integer with
  | None => None
  | Some (ds, s2) =>
      let '(frac, s3) :=
        match s2 with
        | c :: r =>
            if c =? chr "." then
              match span_digits r with
              | ([], _) => ([], s2)
              | (fs, r2) => (c :: fs, r2)
              end
            else ([], s2)
        | [] => ([], s2)
        end in
      let '(exp, s4) :=
        match s3 with
        | c :: r =>
            if (c =? chr "e") || (c =? chr "E") then
              let '(sg, r1) :=
                match r with
                | g :: r' =>
                    if (g =? chr "-") || (g =? chr "+") then ([g], r') else ([], r)
                | [] => ([], r)
                end in
              match span_digits r1 with
              | ([], _) => ([], s3)
              | (es, r2) => (c :: sg ++ es, r2)
              end
            else ([], s3)
        | [] => ([], s3)
        end in
      match frac, exp with
      | [], [] =>
          Some (PInt (if sign is [] then digit_value ds else - digit_value ds)%Z, s4)
      | _, _ => Some (PFloat (sign ++ ds ++ frac ++ exp), s4)
      end
  end.

(** [s.startswith(word)], giving the text after [word]. *)
Fixpoint strip_prefix (word s : pystr) : option pystr :=
  match word, s with
  | [], _ => Some s
  | w :: word', c :: rest => if w =? c then strip_prefix word' rest else None
  | _ :: _, [] => None
  end.

(** [scan_once], [JSONObject] and [JSONArray]. [object_members] starts
    after the opening quote of a key, [array_items] at an item. The fuel
    bounds the nesting; [S (length s)] is enough for the text [s]. *)
Fixpoint scan_once (fuel : nat) (s : pystr) : result (pyval * pystr) :=
  match fuel with
  | O => raise RecursionError
  | S fuel =>
      match s with
      | [] => raise JSONDecodeError
      | c :: rest =>
          if c =? quote then
            let! r := scanstring rest in ok (PStr r.1, r.2)
          else if c =? lbrace then
            match skip_ws rest with
            | d :: rest2 =>
                if d =? rbrace then ok (PDict [], rest2)
                else if d =? quote then object_members fuel rest2 []
                else raise JSONDecodeError
            | [] => raise JSONDecodeError
            end
          else if c =? chr "[" then
            match skip_ws rest with
            | d :: rest2 =>
                if d =? chr "]" then ok (PList [], rest2)
                else array_items fuel (d :: rest2) []
            | [] => raise JSONDecodeError
            end
          else
            match strip_prefix (py "null") s, strip_prefix (py "true") s,
                  strip_prefix (py "false") s with
            | Some r, _, _ => ok (PNone, r)
            | _, Some r, _ => ok (PBool true, r)
            | _, _, Some r => ok (PBool false, r)
            | None, None, None =>
                match match_number s with
                | Some nr => ok nr
                | None =>
                    match strip_prefix (py "NaN") s, strip_prefix (py "Infinity") s,
                          strip_prefix (py "-Infinity") s with
                    | Some r, _, _ => ok (PFloat (py "NaN"), r)
                    | _, Some r, _ => ok (PFloat (py "Infinity"), r)
                    | _, _, Some r => ok (PFloat (py "-Infinity"), r)
                    | None, None, None => raise JSONDecodeError
                    end
                end
            end
      end
  end
with object_members (fuel : nat) (s : pystr) (pairs : list (pystr * pyval))
    : result (pyval * pystr) :=
  match fuel with
  | O => raise RecursionError
  | S fuel =>
      let! k := scanstring s in
      match skip_ws k.2 with
      | colon :: after =>
          if colon =? chr ":" then
            let! v := scan_once fuel (skip_ws after) in
            let pairs := dict_set pairs k.1 v.1 in
            match skip_ws v.2 with
            | d :: rest =>
                if d =? rbrace then ok (PDict pairs, rest)
                else if d =? chr "," then
                  match skip_ws rest with
                  | q :: rest2 =>
                      if q =? quote then object_members fuel rest2 pairs
                      else raise JSONDecodeError
                  | [] => raise JSONDecodeError
                  end
                else raise JSONDecodeError
            | [] => raise JSONDecodeError
            end
          else raise JSONDecodeError
      | [] => raise JSONDecodeError
      end
  end
with array_items (fuel : nat) (s : pystr) (items : list pyval)
    : result (pyval * pystr) :=
  match fuel with
  | O => raise RecursionError
  | S fuel =>
      let! v := scan_once fuel s in
      let items := items ++ [v.1] in
      match skip_ws v.2 with
      | d :: rest =>
          if d =? chr "]" then ok (PList items, rest)
          else if d =? chr "," then array_items fuel (skip_ws rest) items
          else raise JSONDecodeError
      | [] => raise JSONDecodeError
      end
  end.

(** [json.loads(s)]: one value, white space around it, nothing else. *)
Definition loads (s : pystr) : result pyval :=
  let s := skip_ws s in
  let! v := scan_once (S (length s)) s in
  match skip_ws v.2 with
  | [] => ok v.1
  | _ :: _ => raise JSONDecodeError
  end.

Definition hex_digit (d : N) : N := if d <? 10 then 48 + d else 87 + d.

(** [format(n, "04x")] for [n] below 65536. *)
Definition hex4 (n : N) : pystr :=
  [hex_digit (n / 4096 mod 16); hex_digit (n / 256 mod 16);
   hex_digit (n / 16 mod 16); hex_digit (n mod 16)].

Definition u_escape (n : N) : pystr := backslash :: chr "u" :: hex4 n.

(** The replacement of one character by [py_encode_basestring_ascii]:
    the table [ESCAPE_DCT], then a [u] escape for whatever is outside
    the range from space to tilde (a surrogate pair above the BMP). *)
Definition escape_char (c : N) : pystr :=
  if c =? quote then [backslash; quote]
  else if c =? backslash then [backslash; backslash]
  else if c =? 10 then [backslash; chr "n"]
  else if c =? 13 then [backslash; chr "r"]
  else if c =? 9 then [backslash; chr "t"]
  else if c =? 8 then [backslash; chr "b"]
  else if c =? 12 then [backslash; chr "f"]
  else if (32 <=? c) && (c <=? 126) then [c]
  else if c <? 0x10000 then u_escape c
  else
    let n := c - 0x10000 in
    u_escape (N.lor 0xd800 (N.land (N.shiftr n 10) 0x3ff))
    ++ u_escape (N.lor 0xdc00 (N.land n 0x3ff)).

Definition encode_basestring_ascii (s : pystr) : pystr :=
  quote :: (s ≫= escape_char) ++ [quote].

(** One [key: value] item of a serialized dict. *)
Definition dumps_item (kv : pystr * pystr) : pystr :=
  encode_basestring_ascii kv.1 ++ py ": " ++ encode_basestring_ascii kv.2.

(** [json.dumps(d)] for a dict [d] from [str] to [str]. *)
Definition dumps (d : list (pystr * pystr)) : pystr :=
  py "{" ++ join (py ", ") (dumps_item <$> d) ++ py "}".

End Json.

(** ** The Analyzer *)

Definition newline : N := 10.

(** [build_prompt(text, rubric)]; the rubric is a dict from section name
    to instruction. *)
Definition build_prompt (text : pystr) (rubric : list (pystr * pystr)) : pystr :=
  py "Analyze the following website text for Brand, Content, Website, and Marketing:"
  ++ [newline; newline] ++ text ++ [newline; newline]
  ++ py "Use this rubric: " ++ Json.dumps rubric ++ [newline]
  ++ py "Return STRICT JSON ONLY with keys: Brand, Content, Website, Marketing."
  ++ [newline]
  ++ py "Each key must contain: grade (A+ to F), reasoning (string), quick_wins (list of strings)."
  ++ py "Provide a thoroughly detailed paragraph and actionable recommendations in the quick wins section and examples for each section".

(** The arguments of [client.responses.create]. *)
Record request := Request {
  model : pystr;
  input : pystr;
  temperature : Q
}.

(** The fallback report [{"error": "Could not parse JSON", "raw": raw}]. *)
Definition fallback_report (raw : pystr) : pyval :=
  PDict [(py "error", PStr (py "Could not parse JSON")); (py "raw", PStr raw)].

Section Analyzer.

(** The model client ([client.responses.create(...).output_text]) and
    the deserializer ([json.loads]) are the two collaborators of
    [analyze]; [Json.loads] is the deserializer of the standard library
    as modelled above. *)
Variable responses_create : request → result pystr.
Variable json_loads : pystr → result pyval.

(** The [try] block of [analyze] on the reply [raw]. A match object is
    always true, so the [else] branch is the one without a match. *)
Definition parse_reply (raw : pystr) : result pyval :=
  try_except
    (match re_search_braces raw with
     | Some group1 => json_loads group1
     | None => ok (fallback_report raw)
     end)
    (ok (fallback_report raw)).

Definition analyze (text : pystr) (rubric : list (pystr * pystr)) (model : pystr)
    : result pyval :=
  let prompt := build_prompt text rubric in
  let! raw := responses_create (Request model prompt (4 # 10)) in
  parse_reply raw.

End Analyzer.

(** ** Functions of the Python runtime

    What the source calls and neither it nor this development defines:
    the Unicode tables behind [\w], [str] and [repr] of a value that is
    not a string, the truth value of a float, and [textwrap.fill]. *)
Class Runtime := {
  (** [c.isalnum()] for a code point [c] outside ASCII *)
  unicode_alnum : N → bool;
  (** [str(v)] for a value [v] that is not a [str] *)
  py_repr : pyval → pystr;
  (** [bool(float(literal))] *)
  float_nonzero : pystr → bool;
  (** [textwrap.fill(text, width=width)] *)
  textwrap_fill : pystr → Z → pystr
}.

Section Builtins.
Context `{Runtime}.

(** [str(v)] *)
Definition py_str (v : pyval) : pystr :=
  match v with
  | PStr s => s
  | _ => py_repr v
  end.

(** [bool(v)], the test of [if v:] *)
Definition truthy (v : pyval) : bool :=
  match v with
  | PNone => false
  | PBool b => b
  | PInt z => negb (z =? 0)%Z
  | PFloat literal => float_nonzero literal
  | PStr s => negb (bool_decide (s = []))
  | PList items => negb (bool_decide (items = []))
  | PDict entries => negb (bool_decide (entries = []))
  end.

Definition isalnum (c : N) : bool :=
  if c <? 128 then
    Json.is_digit c || ((65 <=? c) && (c <=? 90)) || ((97 <=? c) && (c <=? 122))
  else unicode_alnum c.

(** [\w] in a [str] pattern: alphanumeric or the underscore. *)
Definition is_word (c : N) : bool := isalnum c || (c =? chr "_").

(** The class [[^\w\-_. ]]. *)
Definition disallowed (c : N) : bool :=
  negb (is_word c || (c =? chr "-") || (c =? chr "_") || (c =? chr ".")
        || (c =? chr " ")).

(** [re.sub(r'[^\w\-_. ]', '_', name)] *)
Definition sanitize_filename (name : pystr) : pystr :=
  (λ c, if disallowed c then chr "_" else c) <$> name.

(** The design note's wording of the same step: the characters outside
    the allowed set are stripped from the site name. *)
Definition strip_disallowed (name : pystr) : pystr :=
  filter (λ c, disallowed c = false) name.

End Builtins.

(** [iter(v)] as the list it yields; a value that is not iterable raises
    [TypeError]. *)
Definition py_iter (v : pyval) : result (list pyval) :=
  match v with
  | PList items => ok items
  | PStr s => ok ((λ c, PStr [c]) <$> s)
  | PDict entries => ok ((λ kv, PStr kv.1) <$> entries)
  | _ => raise TypeError
  end.

(** [v.items()]; only a [dict] has the method. *)
Definition dict_items (v : pyval) : result (list (pystr * pyval)) :=
  match v with
  | PDict entries => ok entries
  | _ => raise AttributeError
  end.

(** The line boundaries of [str.splitlines]. *)
Definition is_linebreak (c : N) : bool :=
  bool_decide (c ∈ [10; 11; 12; 13; 28; 29; 30; 0x85; 0x2028; 0x2029]).

(** [s.splitlines()], [line] being the line read so far; a carriage
    return takes a following line feed with it. *)
Fixpoint splitlines_from (line s : pystr) : list pystr :=
  match s with
  | [] => if line is [] then [] else [line]
  | c :: rest =>
      if is_linebreak c then
        line :: splitlines_from []
                  (if c =? 13 then
                     match rest with
                     | d :: rest' => if d =? 10 then rest' else rest
                     | [] => rest
                     end
                   else rest)
      else splitlines_from (line ++ [c]) rest
  end.

(** [v.splitlines()]; only a [str] has the method. *)
Definition splitlines (v : pyval) : result (list pystr) :=
  match v with
  | PStr s => ok (splitlines_from [] s)
  | _ => raise AttributeError
  end.

(** ** The Renderer *)

Abbreviation rgb := (Z * Z * Z)%type.

(** An ordinate passed to [FPDF]: a literal, or what [pdf.get_y()]
    returned after the given number of calls on the document. The value
    itself is a float of the layout engine and stays symbolic. *)
Inductive ordinate :=
| y_mm (y : Z)
| y_after (calls : nat).

(** The calls [build_pdf] makes on the [FPDF] object. *)
Inductive pdf_call :=
| add_page
| set_auto_page_break (auto : bool) (margin : Z)
| set_fill_color (r g b : Z)
| rect (x y w h : Z) (style : pystr)
| add_font (family style fname : pystr)
| image (name : pystr) (x : Z) (y : ordinate) (w : Z)
| ln (h : Z)
| set_font (family style : pystr) (size : Z)
| set_text_color (r g b : Z)
| set_xy (x : Z) (y : ordinate)
| set_x (x : Z)
| cell (w h : Z) (text : pyval) (newline_after : bool) (align : option pystr)
| multi_cell (w h : Z) (text : pystr).

(** A file: an asset read by the renderer, or a document written by
    [pdf.output], kept as the calls that drew it. *)
Inductive file :=
| asset (content : list N)
| pdf_document (calls : list pdf_call).

(** Drawing code: given the number of calls already made on the
    document, the calls it makes in turn and its value; an exception
    abandons them. *)
Definition render (A : Type) : Type := nat → result (A * list pdf_call).

Definition render_ret {A} (a : A) : render A := λ _, ok (a, []).

Definition render_bind {A B} (m : render A) (k : A → render B) : render B :=
  λ made,
    let! r := m made in
    let! r' := k r.1 (made + length r.2)%nat in
    ok (r'.1, r.2 ++ r'.2).

Notation "'do!' x ':=' m 'in' k" := (render_bind m (λ x, k))
  (at level 10, x name, m at level 100, k at level 200).
Notation "m ';;' k" := (render_bind m (λ _, k))
  (at level 100, k at level 200, right associativity).

(** One call on the [FPDF] object. *)
Definition call (c : pdf_call) : render unit := λ _, ok (tt, [c]).

(** [pdf.get_y()] *)
Definition get_y : render ordinate := λ made, ok (y_after made, []).

(** A computation that draws nothing and may raise. *)
Definition lift {A} (r : result A) : render A := λ _, let! a := r in ok (a, []).

Definition when (b : bool) (m : render unit) : render unit :=
  if b then m else render_ret tt.

(** [for x in xs: body(x)] *)
Fixpoint for_each {A} (xs : list A) (body : A → render unit) : render unit :=
  match xs with
  | [] => render_ret tt
  | x :: rest => body x;; for_each rest body
  end.

Definition neutral_color : rgb := (28, 28, 28)%Z.

(** The table [grade_colors] of [build_pdf]. *)
Definition grade_colors : list (pystr * rgb) :=
  [ (py "A+", (68, 206, 27)%Z);
    (py "A", (68, 206, 27)%Z);
    (py "A-", (187, 219, 68)%Z);
    (py "B+", (187, 219, 68)%Z);
    (py "B", (187, 219, 68)%Z);
    (py "B-", (247, 227, 121)%Z);
    (py "C+", (247, 227, 121)%Z);
    (py "C", (247, 227, 121)%Z);
    (py "C-", (242, 161, 52)%Z);
    (py "D+", (242, 161, 52)%Z);
    (py "D", (242, 161, 52)%Z);
    (py "F", (229, 31, 31)%Z) ].

(** [grade_colors.get(grade, (28, 28, 28))]: a list or a dict is not
    hashable, and a hashable value that is not a [str] equals no key. *)
Definition grade_color (grade : pyval) : result rgb :=
  match grade with
  | PStr token => ok (dict_get grade_colors token neutral_color)
  | PList _ | PDict _ => raise TypeError
  | _ => ok neutral_color
  end.

(** The default of [icon_paths]. *)
Definition default_icon_paths : list (pystr * pystr) :=
  [ (py "Brand", py "brand-icon.png");
    (py "Content", py "content-icon.png");
    (py "Website", py "build-icon.png");
    (py "Marketing", py "grow-icon.png") ].

Definition default_header_image : option pystr := Some (py "Growth_Marketing_Audit_Header.png").
Definition default_heading_font : option pystr := Some (py "Montserrat-ExtraBold.ttf").
Definition default_body_font : option pystr := Some (py "Montserrat-Medium.ttf").

Definition section_x : Z := 20.
Definition text_width : Z := 170.

Section Renderer.
Context `{Runtime}.

(** The files present while the document is built. *)
Variable fs : gmap pystr file.

(** [os.path.exists(path)] *)
Definition path_exists (path : pystr) : bool := bool_decide (is_Some (fs !! path)).

(** [path and os.path.exists(path)] for a path argument that may be
    [None] or empty. *)
Definition usable (path : option pystr) : bool :=
  match path with
  | Some (c :: p) => path_exists (c :: p)
  | _ => false
  end.

Variables heading_font body_font : option pystr.
Variable icon_paths : list (pystr * pystr).

(** The first statement of the loop body of [build_pdf]: the grade,
    the reasoning and the quick wins of a section. *)
Definition section_fields (details : pyval) : pyval * pyval * pyval :=
  match details with
  | PDict d =>
      (dict_get d (py "grade") (PStr (py "N/A")),
       dict_get d (py "reasoning") (PStr []),
       dict_get d (py "quick_wins") (PList []))
  | _ => (PStr (py "N/A"), PStr (py_str details), PList [])
  end.

(** The heading font when its file is there, else bold Helvetica. *)
Definition heading_font_call (size : Z) : pdf_call :=
  if usable heading_font then set_font (py "HeadingFont") [] size
  else set_font (py "Helvetica") (py "B") size.

(** The body font when its file is there, else Helvetica. *)
Definition body_font_call (size : Z) : pdf_call :=
  if usable body_font then set_font (py "BodyFont") [] size
  else set_font (py "Helvetica") [] size.

(** The icon, the title and the grade of a section. *)
Definition draw_heading (section : pystr) (grade : pyval) : render unit :=
  let icon_file := dict_lookup icon_paths section in
  let icon_width := 8%Z in
  let icon_gap := 4%Z in
  do! y_start := get_y in
  when (usable icon_file)
    (call (image (default [] icon_file) section_x y_start icon_width));;
  let title_x :=
    (section_x + (if icon_file is Some (_ :: _) then icon_width + icon_gap else 0))%Z in
  call (heading_font_call 16);;
  call (set_text_color 28 28 28);;
  call (set_xy title_x y_start);;
  call (cell 0 8 (PStr (section ++ py " - ")) false None);;
  do! color := lift (grade_color grade) in
  call (set_text_color color.1.1 color.1.2 color.2);;
  call (set_xy (section_x + text_width - 15) y_start);;
  call (cell 15 8 grade true (Some (py "R")));;
  call (ln 6).

(** The reasoning paragraph, its line breaks replaced by spaces. *)
Definition draw_reasoning (reasoning : pyval) : render unit :=
  call (body_font_call 11);;
  call (set_text_color 28 28 28);;
  do! lines := lift (splitlines reasoning) in
  let reasoning_clean := join (py " ") lines in
  call (set_x section_x);;
  call (multi_cell text_width 6 reasoning_clean);;
  call (ln 3).

(** The [Quick Wins] block, drawn when [quick_wins] is true. *)
Definition draw_quick_wins (quick_wins : pyval) : render unit :=
  when (truthy quick_wins)
    (call (heading_font_call 13);;
     call (set_text_color 28 28 28);;
     call (set_x section_x);;
     call (cell 0 6 (PStr (py "Quick Wins:")) true None);;
     call (body_font_call 10);;
     call (set_text_color 28 28 28);;
     do! qs := lift (py_iter quick_wins) in
     for_each qs (λ q,
       let q_wrapped := textwrap_fill (py "- " ++ py_str q) 110 in
       call (set_x section_x);;
       call (multi_cell text_width 6 q_wrapped));;
     call (ln 6)).

(** The body of [for section, details in audit.items()]. *)
Definition draw_section (item : pystr * pyval) : render unit :=
  let '(grade, reasoning, quick_wins) := section_fields item.2 in
  draw_heading item.1 grade;;
  draw_reasoning reasoning;;
  draw_quick_wins quick_wins.

(** The page set-up of [build_pdf], up to the space after the header. *)
Definition draw_preamble (header_image : option pystr) : render unit :=
  call add_page;;
  call (set_auto_page_break true 15);;
  call (set_fill_color 249 249 250);;
  call (rect 0 0 210 297 (py "F"));;
  when (usable heading_font)
    (call (add_font (py "HeadingFont") [] (default [] heading_font)));;
  when (usable body_font)
    (call (add_font (py "BodyFont") [] (default [] body_font)));;
  when (usable header_image)
    (call (image (default [] header_image) 0 (y_mm 0) 210));;
  call (ln 40).

(** The document [build_pdf] draws for [audit]. *)
Definition draw_document (audit : pyval) (header_image : option pystr)
    : render unit :=
  draw_preamble header_image;;
  do! items := lift (dict_items audit) in
  for_each items draw_section.

End Renderer.

(** [build_pdf(audit, website_url, header_image, heading_font, body_font,
    icon_paths)] run with the files [fs]: the name returned and the
    files afterwards. [pdf.output] is taken to succeed. *)
Definition build_pdf `{Runtime} (fs : gmap pystr file)
    (audit : pyval) (website_url : pystr)
    (header_image heading_font body_font : option pystr)
    (icon_paths : option (list (pystr * pystr)))
    : result (pystr * gmap pystr file) :=
  let icon_paths := default default_icon_paths icon_paths in
  let! drawn :=
    draw_document fs heading_font body_font icon_paths audit header_image 0%nat in
  let sanitized_name := sanitize_filename website_url in
  let out_file := py "audit_" ++ sanitized_name ++ py ".pdf" in
  ok (out_file, <[out_file := pdf_document drawn.2]> fs).

(** The values a section is drawn for without an exception: the grade
    is hashable, the reasoning is a [str], and the quick wins are false
    or iterable. A value that is not a dict is always one. *)
Definition drawable `{Runtime} (details : pyval) : Prop :=
  (∃ color, grade_color (section_fields details).1.1 = ok color)
  ∧ (∃ text, (section_fields details).1.2 = PStr text)
  ∧ (truthy (section_fields details).2 = true →
     ∃ qs, py_iter (section_fields details).2 = ok qs).

(** ** What a document shows *)

(** The title cell of a section: [cell(0, 8, text, ln=False)]. *)
Definition title_of (c : pdf_call) : option pyval :=
  match c with
  | cell 0 8 text false None => Some text
  | _ => None
  end.

(** The section titles of a document, in the order drawn. *)
Fixpoint section_titles (calls : list pdf_call) : list pyval :=
  match calls with
  | [] => []
  | c :: rest =>
      match title_of c with
      | Some text => text :: section_titles rest
      | None => section_titles rest
      end
  end.

(** The grade badges of a document: the cells aligned to the right,
    each with the text colour in force when it is drawn, [color] being
    the colour in force at the start. *)
Fixpoint grade_badges (color : rgb) (calls : list pdf_call) : list (rgb * pyval) :=
  match calls with
  | [] => []
  | set_text_color r g b :: rest => grade_badges (r, g, b) rest
  | cell _ _ text _ (Some align) :: rest =>
      if bool_decide (align = py "R") then (color, text) :: grade_badges color rest
      else grade_badges color rest
  | _ :: rest => grade_badges color rest
  end.

(** Every text a document draws, with its colour. *)
Fixpoint drawn_texts (color : rgb) (calls : list pdf_call) : list (rgb * pyval) :=
  match calls with
  | [] => []
  | set_text_color r g b :: rest => drawn_texts (r, g, b) rest
  | cell _ _ text _ _ :: rest => (color, text) :: drawn_texts color rest
  | multi_cell _ _ text :: rest => (color, PStr text) :: drawn_texts color rest
  | _ :: rest => drawn_texts color rest
  end.

(** The text colour of a new document. *)
Definition black : rgb := (0, 0, 0)%Z.

(** The images a document places, by file name. *)
Fixpoint images (calls : list pdf_call) : list pystr :=
  match calls with
  | [] => []
  | image name _ _ _ :: rest => name :: images rest
  | _ :: rest => images rest
  end.

(** The calls of the document a run of [build_pdf] wrote, none when it
    raised. *)
Definition document_of (run : result (pystr * gmap pystr file)) : list pdf_call :=
  match run with
  | inr (out_file, files) =>
      match files !! out_file with
      | Some (pdf_document calls) => calls
      | _ => []
      end
  | inl _ => []
  end.

(** ** Values used in the examples *)

(** A runtime for the examples, which hold ASCII text, stringify only
    strings and wrap only short lines: no code point outside ASCII is
    alphanumeric, every other value prints as [?], a float is true
    unless its digits are all 0, and short text wraps to itself. *)
Definition example_runtime : Runtime := {|
  unicode_alnum := λ _, false;
  py_repr := λ _, py "?";
  float_nonzero := λ literal,
    bool_decide (Exists (λ c, (49 <=? c) && (c <=? 57) = true) literal);
  textwrap_fill := λ text _, text
|}.

(** A model client that answers every request with [reply]. *)
Definition stub_client (reply : pystr) : request → result pystr := λ _, ok reply.

Definition example_rubric : list (pystr * pystr) :=
  [ (py "Brand", py "Is the brand positioning clear?");
    (py "Content", py "Point out missing elements: meta tags.") ].

Definition quoted (s : pystr) : pystr := Json.quote :: s ++ [Json.quote].

(** The text between the braces of a reply object with one section. *)
Definition example_object_body : pystr :=
  quoted (py "Brand") ++ py ": {"
  ++ quoted (py "grade") ++ py ": " ++ quoted (py "A") ++ py ", "
  ++ quoted (py "reasoning") ++ py ": " ++ quoted (py "Clear.") ++ py ", "
  ++ quoted (py "quick_wins") ++ py ": [" ++ quoted (py "Add a tagline") ++ py "]}".

Definition example_object : pyval :=
  PDict [(py "Brand",
          PDict [(py "grade", PStr (py "A"));
                 (py "reasoning", PStr (py "Clear."));
                 (py "quick_wins", PList [PStr (py "Add a tagline")])])].


(** ** The rest of [audit_mvp.py] *)

(** [s.replace(old, new)] for two one-character strings. *)
Definition replace_char (old new : N) (s : pystr) : pystr :=
  (λ c, if c =? old then new else c) <$> s.

(** [safe_text(text)]: the en dash becomes a hyphen, the two curly
    double quotes the straight one. *)
Definition safe_text `{Runtime} (text : pyval) : pystr :=
  replace_char 0x201d Json.quote
    (replace_char 0x201c Json.quote
       (replace_char 0x2013 (chr "-") (py_str text))).

(** The rubric of [generate_audit_report]. *)
Definition rubric : list (pystr * pystr) :=
  [ (py "Brand",
     py "Is the brand positioning clear and differentiated? If not, what"
     ++ [0x2019]
     ++ py "s confusing or weak? Where does the messaging fail to connect with the intended audience? Critique tone, clarity, and trust signals. Provide sharper alternatives.");
    (py "Content",
     py "Point out missing or poorly optimized elements: meta tags, keyword targeting, content depth. Identify weaknesses compared to industry best practices (e.g., lack of authority content, weak internal linking). Suggest exactly what types of content should be created or improved");
    (py "Website",
     py "Critically evaluate navigation, mobile performance, and calls-to-action. Identify friction points that would cause a visitor to bounce or fail to convert. Be blunt about design flaws, clutter, or poor layout choices. Recommend fixes.");
    (py "Marketing",
     py "- Call out channels the business is underutilizing (paid ads, email nurture, partnerships, retargeting). Highlight quick wins that could drive immediate ROI. Provide bold, high-impact recommendations for scaling growth "
     ++ [0x2014]
     ++ py " even if they require major changes.  ") ].

(** The parsed command line of [main]. *)
Record cli_args := CliArgs {
  arg_url : pystr;
  arg_out : pystr;
  arg_logo : option pystr;
  arg_heading_font : option pystr;
  arg_body_font : option pystr;
  arg_model : pystr
}.

(** The parameters of [build_pdf], by name. *)
Definition build_pdf_parameters : list pystr :=
  [py "audit"; py "website_url"; py "header_image"; py "heading_font";
   py "body_font"; py "icon_paths"].

(** The binding of the keyword arguments of a call: a keyword that names
    no parameter raises [TypeError] before the body runs. *)
Definition bind_keywords (parameters keywords : list pystr) : result unit :=
  if forallb (λ k, bool_decide (k ∈ parameters)) keywords then ok tt
  else raise TypeError.

(** ** [app.py] *)

(** [s.split(sep)] for a separator that is not empty: [cur] is the piece
    read so far and [skip] the number of characters of a separator just
    found that are still to pass. *)
Fixpoint split_from (sep : pystr) (skip : nat) (cur s : pystr) : list pystr :=
  match s with
  | [] => [cur]
  | c :: rest =>
      match skip with
      | S k => split_from sep k cur rest
      | O =>
          match Json.strip_prefix sep s with
          | Some _ => cur :: split_from sep (length sep - 1) [] rest
          | None => split_from sep 0 (cur ++ [c]) rest
          end
      end
  end.

Definition split (s sep : pystr) : list pystr := split_from sep 0 [] s.

(** [website_url.split("//")[-1].split("/")[0]] *)
Definition site_of (website_url : pystr) : pystr :=
  default [] (head (split (default [] (last (split website_url (py "//"))))
                      (py "/"))).

(** [os.path.join(a, b)] on POSIX. *)
Definition path_join (a b : pystr) : pystr :=
  if bool_decide (head b = Some (chr "/")) then b
  else if bool_decide (a = []) || bool_decide (last a = Some (chr "/")) then a ++ b
  else a ++ py "/" ++ b.

(** The calls the page makes on [st]. *)
Inductive st_call :=
| st_error (msg : pystr)
| st_spinner (msg : pystr)
| st_success (msg : pystr)
| st_subheader (text : pystr)
| st_write (value : pyval)
| st_markdown (text : pystr)
| st_download_button (label : pystr) (data : file) (file_name mime : pystr).

(** Page code: the calls made on [st], kept also when an exception ends
    the run, and the value or the exception. *)
Definition screen (A : Type) : Type := list st_call * result A.

Definition screen_ret {A} (a : A) : screen A := ([], ok a).

Definition screen_bind {A B} (m : screen A) (k : A → screen B) : screen B :=
  match m.2 with
  | inl e => (m.1, inl e)
  | inr a => (m.1 ++ (k a).1, (k a).2)
  end.

Notation "'ui!' x ':=' m 'in' k" := (screen_bind m (λ x, k))
  (at level 10, x name, m at level 100, k at level 200).
Notation "m ';>' k" := (screen_bind m (λ _, k))
  (at level 100, k at level 200, right associativity).

Definition show (c : st_call) : screen unit := ([c], ok tt).

Definition screen_lift {A} (r : result A) : screen A := ([], r).

Fixpoint show_each {A} (xs : list A) (body : A → screen unit) : screen unit :=
  match xs with
  | [] => screen_ret tt
  | x :: rest => body x;> show_each rest body
  end.

Definition en_dash : N := 0x2013.

Section Pipeline.
Context `{Runtime}.

(** The fetch and the HTML parse of [scrape_website]: the stripped
    strings of the page at a URL, or the exception of either. *)
Variable stripped_strings : pystr → result (list pystr).
Variable responses_create : request → result pystr.
Variable json_loads : pystr → result pyval.

Definition scrape_website (url : pystr) : result pystr :=
  let! texts := stripped_strings url in
  ok (join (py " ") texts).

Definition generate_audit_report (website_url model : pystr) : result pyval :=
  let! text := scrape_website website_url in
  analyze responses_create json_loads text rubric model.

(** [main()] on the parsed arguments: the lines printed, and the result
    of the call of [build_pdf]. *)
Definition main (fs : gmap pystr file) (args : cli_args)
    : list pystr * result (pystr * gmap pystr file) :=
  match generate_audit_report (arg_url args) (arg_model args) with
  | inl e => ([], inl e)
  | inr audit =>
      ([py "Generating PDF..."],
       let! _ := bind_keywords build_pdf_parameters
                   [py "logo_path"; py "heading_font"; py "body_font"] in
       build_pdf fs audit (arg_out args) default_header_image
         (arg_heading_font args) (arg_body_font args) None)
  end.

(** The body of the loop over [report.items()] of the page. *)
Definition show_section (item : pystr * pyval) : screen unit :=
  match item.2 with
  | PDict d =>
      show (st_subheader
              (item.1 ++ py " " ++ [en_dash] ++ py " Grade: "
               ++ py_str (dict_get d (py "grade") (PStr (py "N/A")))));>
      show (st_write (dict_get d (py "reasoning")
                        (PStr (py "No reasoning available."))));>
      if truthy (dict_get d (py "quick_wins") PNone) then
        show (st_markdown (py "**Quick Wins:**"));>
        ui! qs := screen_lift (py_iter (dict_get d (py "quick_wins") PNone)) in
        show_each qs (λ q, show (st_write (PStr (py "- " ++ py_str q))))
      else screen_ret tt
  | details => show (st_subheader item.1);> show (st_write details)
  end.

(** [re.sub(r"[^\w\-]", "_", site)] *)
Definition safe_site_name (website_url : pystr) : pystr :=
  (λ c, if is_word c || (c =? chr "-") then c else chr "_") <$> site_of website_url.

(** [tempfile.gettempdir()] *)
Variable temp_dir : pystr.

(** What the page does when [Generate Audit] is pressed, with the text
    of the input and the files as they are: the calls on [st], and the
    files afterwards. *)
Definition on_generate (fs : gmap pystr file) (website_url : pystr)
    : screen (gmap pystr file) :=
  if bool_decide (website_url = []) then
    show (st_error (py "Please enter a website URL before generating the audit."));>
    screen_ret fs
  else
    show (st_spinner (py "Generating your audit report..."));>
    ui! report := screen_lift (generate_audit_report website_url (py "gpt-4o-mini")) in
    match report with
    | PDict (entry :: entries) =>
        show (st_success ([0x2705] ++ py " Audit complete!"));>
        show_each (entry :: entries) show_section;>
        let pdf_path := path_join temp_dir (safe_site_name website_url ++ py "_audit.pdf") in
        ui! built := screen_lift
                       (build_pdf fs report pdf_path
                          (Some (py "Growth_Marketing_Audit_Header.png"))
                          (Some (py "Montserrat-ExtraBold.ttf"))
                          (Some (py "Montserrat-Medium.ttf")) None) in
        match built.2 !! built.1 with
        | Some pdf_bytes =>
            show (st_download_button ([0x1f4c4] ++ py " Download Audit PDF") pdf_bytes
                    (safe_site_name website_url ++ py "_audit.pdf")
                    (py "application/pdf"));>
            screen_ret built.2
        | None =>
            show (st_error ([0x26a0; 0xfe0f]
                            ++ py " PDF generation failed. Please check your backend function."));>
            screen_ret built.2
        end
    | _ =>
        show (st_error ([0x26a0; 0xfe0f]
                        ++ py " Audit report is invalid. Please check the backend function."));>
        screen_ret fs
    end.

End Pipeline.

(** A Unicode scalar value: a code point that is not a surrogate. *)
Definition is_scalar_value (c : N) : bool :=
  (c <? 0xd800) || ((0xdfff <? c) && (c <? 0x110000)).

(** The texts of the subheaders among the calls of the page. *)
Fixpoint subheaders (calls : list st_call) : list pystr :=
  match calls with
  | [] => []
  | st_subheader text :: rest => text :: subheaders rest
  | _ :: rest => subheaders rest
  end.

(** The messages of [st.error] among the calls of the page. *)
Fixpoint error_messages (calls : list st_call) : list pystr :=
  match calls with
  | [] => []
  | st_error msg :: rest => msg :: error_messages rest
  | _ :: rest => error_messages rest
  end.

(** ** Notions used in the further properties *)

(** What [safe_text] makes of one character. *)
Definition safe_char (c : N) : N :=
  if c =? 0x2013 then chr "-"
  else if (c =? 0x201c) || (c =? 0x201d) then Json.quote
  else c.

(** The path separator. *)
Definition slash : N := chr "/".

(** A font a section selects is Helvetica, or one of the two fonts of
    the report when its file is there. *)
Definition font_selected_ok `{Runtime} (fs : gmap pystr file)
    (heading_font body_font : option pystr) (c : pdf_call) : Prop :=
  ∀ family style size,
    c = set_font family style size →
    family = py "Helvetica"
    ∨ (family = py "HeadingFont" ∧ usable fs heading_font = true)
    ∨ (family = py "BodyFont" ∧ usable fs body_font = true).

(** The subheader of a section on the page: the argument of
    [st.subheader] in either branch of the loop body. *)
Definition header_of `{Runtime} (item : pystr * pyval) : pystr :=
  match item.2 with
  | PDict d =>
      item.1 ++ py " " ++ [en_dash] ++ py " Grade: "
      ++ py_str (dict_get d (py "grade") (PStr (py "N/A")))
  | _ => item.1
  end.

(** The two fonts of the report as files that are there. *)
Definition example_fonts : gmap pystr file :=
  <[py "Montserrat-ExtraBold.ttf" := asset []]>
    (<[py "Montserrat-Medium.ttf" := asset []]> ∅).

(** The stripped strings of a page for the examples. *)
Definition example_page (url : pystr) : result (list pystr) :=
  ok [py "Acme"; py "Pricing"].

(** * Properties *)

(** ** The brace pattern *)

Lemma greedy_to_rbrace_absent (s : pystr) :
  rbrace ∉ s → greedy_to_rbrace s = None.
Proof.
  induction s as [|c s IH]; intros Hs; simpl; [done|].
  apply not_elem_of_cons in Hs as [Hc Hs].
  rewrite (IH Hs). apply N.eqb_neq in Hc. by rewrite N.eqb_sym, Hc.
Qed.

Lemma greedy_to_rbrace_last (mid post : pystr) :
  rbrace ∉ post → greedy_to_rbrace (mid ++ rbrace :: post) = Some (mid ++ [rbrace]).
Proof.
  intros Hpost. induction mid as [|c mid IH]; simpl.
  - by rewrite (greedy_to_rbrace_absent post Hpost), ?N.eqb_refl.
  - by rewrite IH.
Qed.

Lemma greedy_to_rbrace_None_inv (s : pystr) :
  greedy_to_rbrace s = None → rbrace ∉ s.
Proof.
  induction s as [|c s IH]; simpl; [intros _; apply not_elem_of_nil|].
  destruct (greedy_to_rbrace s); [done|].
  destruct (c =? rbrace) eqn:Hc; [done|]. intros _.
  apply not_elem_of_cons. split; [|by apply IH].
  intros <-. by rewrite N.eqb_refl in Hc.
Qed.

(** The search returns the text from the first opening brace to the last
    closing brace. *)
Lemma re_search_braces_first_to_last (pre mid post : pystr) :
  lbrace ∉ pre → rbrace ∉ post →
  re_search_braces (pre ++ lbrace :: mid ++ rbrace :: post)
  = Some (lbrace :: mid ++ [rbrace]).
Proof.
  intros Hpre Hpost. induction pre as [|c pre IH]; simpl.
  - by rewrite ?N.eqb_refl, greedy_to_rbrace_last.
  - apply not_elem_of_cons in Hpre as [Hc Hpre].
    apply N.eqb_neq in Hc. rewrite N.eqb_sym in Hc. rewrite Hc. by apply IH.
Qed.

(** The search finds nothing exactly when no closing brace follows an
    opening brace. *)
Lemma re_search_braces_None (raw : pystr) :
  re_search_braces raw = None ↔ ∀ a b, raw = a ++ lbrace :: b → rbrace ∉ b.
Proof.
  induction raw as [|c raw IH]; simpl.
  - split; [|done]. intros _ [|??] ? ?; simplify_eq.
  - split.
    + intros Hs a b Hab. destruct a as [|c' a]; simplify_eq/=.
      * rewrite ?N.eqb_refl in Hs.
        destruct (greedy_to_rbrace b) eqn:Hg; [done|].
        by apply greedy_to_rbrace_None_inv.
      * assert (re_search_braces (a ++ lbrace :: b) = None) as Hrest.
        { destruct (c' =? lbrace); [|done].
          by destruct (greedy_to_rbrace (a ++ lbrace :: b)). }
        by apply (proj1 IH Hrest a b).
    + intros Hall.
      assert (re_search_braces raw = None) as ->.
      { apply IH. intros a b ->. by apply (Hall (c :: a) b). }
      destruct (c =? lbrace) eqn:Hc; [|done].
      apply N.eqb_eq in Hc as ->.
      by rewrite (greedy_to_rbrace_absent raw (Hall [] raw eq_refl)).
Qed.

(** ** The Analyzer *)

Lemma occurs_in_refl (a : pystr) : occurs_in a a.
Proof. exists [], []. by rewrite app_nil_r. Qed.

Lemma occurs_in_app_l (a b x : pystr) : occurs_in a b → occurs_in a (x ++ b).
Proof. intros (pre & post & ->). exists (x ++ pre), post. by rewrite <-app_assoc. Qed.

Lemma occurs_in_app_r (a b y : pystr) : occurs_in a b → occurs_in a (b ++ y).
Proof.
  intros (pre & post & ->). exists pre, (post ++ y). by rewrite <-!app_assoc.
Qed.

Lemma occurs_in_join (sep x : pystr) (parts : list pystr) :
  x ∈ parts → occurs_in x (join sep parts).
Proof.
  induction parts as [|p parts IH]; [by intros ?%elem_of_nil|].
  intros [->|Hx]%elem_of_cons.
  - destruct parts; [apply occurs_in_refl|]. apply occurs_in_app_r, occurs_in_refl.
  - destruct parts as [|p' parts]; [by apply elem_of_nil in Hx|].
    change (occurs_in x (p ++ sep ++ join sep (p' :: parts))).
    by apply occurs_in_app_l, occurs_in_app_l, IH.
Qed.

Lemma parse_reply_no_match (json_loads : pystr → result pyval) (raw : pystr) :
  re_search_braces raw = None → parse_reply json_loads raw = ok (fallback_report raw).
Proof. unfold parse_reply. by intros ->. Qed.

Lemma parse_reply_match (json_loads : pystr → result pyval) (raw region : pystr) :
  re_search_braces raw = Some region →
  parse_reply json_loads raw
  = match json_loads region with
    | inl _ => ok (fallback_report raw)
    | inr report => ok report
    end.
Proof. unfold parse_reply. by intros ->. Qed.

(** The parse step never raises, whatever the reply and the deserializer. *)
Lemma parse_reply_never_raises (json_loads : pystr → result pyval) (raw : pystr) :
  ∃ report, parse_reply json_loads raw = ok report.
Proof.
  unfold parse_reply.
  destruct (re_search_braces raw); [destruct (json_loads _)|]; simpl; eauto.
Qed.

(** C1. When the reply holds no brace-delimited region, or the region
    found fails to deserialize, [analyze] returns the fallback mapping:
    its [error] entry is the non-empty reason [Could not parse JSON], its
    [raw] entry is the reply unchanged, and no exception leaves the
    parse step. *)
Theorem analyze_fallback_on_unparsable_reply
    (responses_create : request → result pystr)
    (json_loads : pystr → result pyval)
    (text : pystr) (rubric : list (pystr * pystr)) (model raw : pystr) :
  responses_create (Request model (build_prompt text rubric) (4 # 10)) = ok raw →
  (re_search_braces raw = None
   ∨ ∃ region e, re_search_braces raw = Some region ∧ json_loads region = raise e) →
  analyze responses_create json_loads text rubric model
  = ok (PDict [(py "error", PStr (py "Could not parse JSON")); (py "raw", PStr raw)])
  ∧ py "Could not parse JSON" ≠ [].
Proof.
  intros Hreply Hbad. split; [|done].
  unfold analyze. rewrite Hreply. simpl.
  destruct Hbad as [Hnone|(region & e & Hsome & Hfail)].
  - by apply parse_reply_no_match.
  - by rewrite (parse_reply_match _ _ _ Hsome), Hfail.
Qed.

Lemma analyze_fallback_on_unparsable_reply_witness :
  (analyze (stub_client (py "I could not assess this site.")) Json.loads
     (py "page text") example_rubric (py "gpt-4o-mini")
   = ok (PDict [(py "error", PStr (py "Could not parse JSON"));
                (py "raw", PStr (py "I could not assess this site."))])
   ∧ py "Could not parse JSON" ≠ [])
  ∧ (Json.loads (py "{Brand: A}") = raise JSONDecodeError
     ∧ analyze (stub_client (py "Result: {Brand: A}")) Json.loads
         (py "page text") example_rubric (py "gpt-4o-mini")
       = ok (PDict [(py "error", PStr (py "Could not parse JSON"));
                    (py "raw", PStr (py "Result: {Brand: A}"))])).
Proof.
  split.
  - apply (analyze_fallback_on_unparsable_reply
             (stub_client (py "I could not assess this site.")) Json.loads);
      [reflexivity|left; reflexivity].
  - split; [reflexivity|].
    apply (analyze_fallback_on_unparsable_reply
             (stub_client (py "Result: {Brand: A}")) Json.loads);
      [reflexivity|right].
    exists (py "{Brand: A}"), JSONDecodeError. split; reflexivity.
Defined.

(** C2, as stated, fails: an object embedded in prose that itself holds
    a brace is not what the pattern extracts. The reply [{draft} {}]
    embeds the valid object [{}], yet the region from the first opening
    brace to the last closing brace is the whole reply, which does not
    deserialize, and the fallback is returned. *)
Lemma analyze_embedded_object_counterexample :
  Json.loads (py "{}") = ok (PDict [])
  ∧ re_search_braces (py "{draft} " ++ py "{}") = Some (py "{draft} {}")
  ∧ analyze (stub_client (py "{draft} " ++ py "{}")) Json.loads
      (py "page text") example_rubric (py "gpt-4o-mini")
    ≠ ok (PDict []).
Proof. repeat split; [reflexivity..|]. vm_compute. discriminate. Qed.

(** C2, amended. When the prose before the object holds no opening
    brace and the prose after it no closing brace, [analyze] extracts
    exactly the text of the object, from its opening to its closing
    brace, and returns what the deserializer makes of it as it is: no
    key is looked for in the value. *)
Theorem analyze_embedded_object
    (responses_create : request → result pystr)
    (json_loads : pystr → result pyval)
    (text : pystr) (rubric : list (pystr * pystr)) (model : pystr)
    (pre mid post : pystr) (report : pyval) :
  responses_create (Request model (build_prompt text rubric) (4 # 10))
  = ok (pre ++ lbrace :: mid ++ rbrace :: post) →
  lbrace ∉ pre →
  rbrace ∉ post →
  json_loads (lbrace :: mid ++ [rbrace]) = ok report →
  re_search_braces (pre ++ lbrace :: mid ++ rbrace :: post)
  = Some (lbrace :: mid ++ [rbrace])
  ∧ analyze responses_create json_loads text rubric model = ok report.
Proof.
  intros Hreply Hpre Hpost Hloads.
  pose proof (re_search_braces_first_to_last pre mid post Hpre Hpost) as Hsearch.
  split; [done|].
  unfold analyze. rewrite Hreply. simpl.
  by rewrite (parse_reply_match _ _ _ Hsearch), Hloads.
Qed.

Lemma analyze_embedded_object_witness :
  (analyze
     (stub_client (py "Here is the audit: " ++ lbrace :: example_object_body
                   ++ rbrace :: py " Hope it helps."))
     Json.loads (py "page text") example_rubric (py "gpt-4o-mini")
   = ok example_object)
  ∧ analyze (stub_client (py "Sure. " ++ lbrace :: [] ++ rbrace :: py " Done."))
      Json.loads (py "page text") example_rubric (py "gpt-4o-mini")
    = ok (PDict []).
Proof.
  split.
  - apply (analyze_embedded_object
             (stub_client (py "Here is the audit: " ++ lbrace :: example_object_body
                           ++ rbrace :: py " Hope it helps."))
             Json.loads (py "page text") example_rubric (py "gpt-4o-mini")
             (py "Here is the audit: ") example_object_body (py " Hope it helps.")
             example_object);
      [reflexivity|compute_done|compute_done|reflexivity].
  - apply (analyze_embedded_object
             (stub_client (py "Sure. " ++ lbrace :: [] ++ rbrace :: py " Done."))
             Json.loads (py "page text") example_rubric (py "gpt-4o-mini")
             (py "Sure. ") [] (py " Done.") (PDict []));
      [reflexivity|compute_done|compute_done|reflexivity].
Defined.

Lemma dumps_item_occurs_in_dumps (rubric : list (pystr * pystr)) (kv : pystr * pystr) :
  kv ∈ rubric → occurs_in (Json.dumps_item kv) (Json.dumps rubric).
Proof.
  intros Hkv. unfold Json.dumps.
  apply occurs_in_app_l, occurs_in_app_r, occurs_in_join.
  by apply list_elem_of_fmap_2.
Qed.

(** C7. The prompt is a fixed template around the two inputs: it holds
    the page text verbatim and, for every rubric entry, the serialized
    item [key: value] of [json.dumps]; nothing else enters it. *)
Theorem build_prompt_embeds_text_and_rubric :
  ∃ head middle tail : pystr,
    ∀ (text : pystr) (rubric : list (pystr * pystr)),
      build_prompt text rubric = head ++ text ++ middle ++ Json.dumps rubric ++ tail
      ∧ occurs_in text (build_prompt text rubric)
      ∧ Forall (λ kv, occurs_in (Json.dumps_item kv) (build_prompt text rubric)) rubric.
Proof.
  exists
    (py "Analyze the following website text for Brand, Content, Website, and Marketing:"
     ++ [newline; newline]),
    ([newline; newline] ++ py "Use this rubric: "),
    ([newline]
     ++ py "Return STRICT JSON ONLY with keys: Brand, Content, Website, Marketing."
     ++ [newline]
     ++ py "Each key must contain: grade (A+ to F), reasoning (string), quick_wins (list of strings)."
     ++ py "Provide a thoroughly detailed paragraph and actionable recommendations in the quick wins section and examples for each section").
  intros text rubric.
  match goal with |- ?prompt = ?shape ∧ _ => assert (prompt = shape) as Hshape end.
  { unfold build_prompt. by rewrite <-!app_assoc. }
  split; [exact Hshape|]. rewrite Hshape. split.
  - apply occurs_in_app_l, occurs_in_app_r, occurs_in_refl.
  - apply Forall_forall. intros kv Hkv.
    apply occurs_in_app_l, occurs_in_app_l, occurs_in_app_l, occurs_in_app_r.
    by apply dumps_item_occurs_in_dumps.
Qed.

(** ** File names *)

Section Sanitize.
Context `{Runtime}.

Lemma disallowed_false (c : N) :
  disallowed c = false ↔
  is_word c = true ∨ c = chr "-" ∨ c = chr "_" ∨ c = chr "." ∨ c = chr " ".
Proof.
  unfold disallowed. rewrite negb_false_iff, !orb_true_iff, !N.eqb_eq. tauto.
Qed.

Lemma underscore_allowed : disallowed (chr "_") = false.
Proof. apply disallowed_false. by right; right; left. Qed.

Lemma sanitized_char_allowed (c : N) :
  disallowed (if disallowed c then chr "_" else c) = false.
Proof. destruct (disallowed c) eqn:Hc; [apply underscore_allowed|done]. Qed.

Lemma sanitize_filename_allowed (name : pystr) :
  Forall (λ c, disallowed c = false) (sanitize_filename name).
Proof.
  unfold sanitize_filename. apply Forall_fmap, Forall_true.
  intros c. apply sanitized_char_allowed.
Qed.

End Sanitize.

(** C5, as stated, fails: the disallowed characters are not stripped.
    On [example.com/blog] stripping gives [example.comblog], while
    [sanitize_filename] gives [example.com_blog]. *)
Lemma sanitize_filename_strips_counterexample :
  @strip_disallowed example_runtime (py "example.com/blog") = py "example.comblog"
  ∧ @sanitize_filename example_runtime (py "example.com/blog") = py "example.com_blog"
  ∧ @sanitize_filename example_runtime (py "example.com/blog")
    ≠ @strip_disallowed example_runtime (py "example.com/blog").
Proof. repeat split; [reflexivity..|]. vm_compute. discriminate. Qed.

(** C5, amended. For every site name, the sanitized name and the output
    file name built from it hold only word characters, hyphens,
    underscores, periods and spaces; each disallowed character is
    replaced in place by an underscore, the other characters and the
    length are kept. *)
Theorem sanitize_filename_only_allowed `{Runtime} (name : pystr) :
  let allowed := λ c : N,
    is_word c = true ∨ c = chr "-" ∨ c = chr "_" ∨ c = chr "." ∨ c = chr " " in
  Forall allowed (sanitize_filename name)
  ∧ Forall allowed (py "audit_" ++ sanitize_filename name ++ py ".pdf")
  ∧ length (sanitize_filename name) = length name
  ∧ ∀ i : nat,
      sanitize_filename name !! i
      = (λ c, if disallowed c then chr "_" else c) <$> (name !! i).
Proof.
  intros allowed.
  assert (Forall allowed (sanitize_filename name)) as Hbody.
  { eapply Forall_impl; [apply sanitize_filename_allowed|].
    intros c. apply disallowed_false. }
  split; [done|]. split; [|split].
  - rewrite !Forall_app. split; [|split; [done|]].
    + repeat constructor; apply disallowed_false; reflexivity.
    + repeat constructor; apply disallowed_false; reflexivity.
  - unfold sanitize_filename. by rewrite length_fmap.
  - intros i. unfold sanitize_filename. by rewrite list_lookup_fmap.
Qed.

(** C9. [sanitize_filename] is idempotent: what it returns holds allowed
    characters only, the underscore it writes being one of them. *)
Theorem sanitize_filename_idempotent `{Runtime} (name : pystr) :
  sanitize_filename (sanitize_filename name) = sanitize_filename name.
Proof.
  unfold sanitize_filename. rewrite <-list_fmap_compose.
  apply list_fmap_ext. intros i c _. simpl.
  by rewrite sanitized_char_allowed.
Qed.

(** ** Dictionaries *)

Lemma dict_lookup_None {V} (d : list (pystr * V)) (key : pystr) :
  dict_lookup d key = None ↔ key ∉ d.*1.
Proof.
  induction d as [|[k v] d IH]; simpl.
  - split; [intros _; apply not_elem_of_nil|done].
  - unfold pystr_eqb. rewrite not_elem_of_cons. case_bool_decide as Hk.
    + split; [done|]. intros [Hne _]. by destruct Hne.
    + rewrite IH. split; [intros Hd; split; [by intros ->|done]|by intros [_ Hd]].
Qed.

Lemma dict_get_absent {V} (d : list (pystr * V)) (key : pystr) (dflt : V) :
  key ∉ d.*1 → dict_get d key dflt = dflt.
Proof. intros Hkey. unfold dict_get. by rewrite (proj2 (dict_lookup_None d key) Hkey). Qed.

(** ** Grade colours *)

(** C4. The table has the twelve tokens from [A+] down to [F], in five
    buckets of one colour each, the colours differing from one another
    and from the fallback; [A+] and [A] get the same colour; [Z], and
    any token that is not one of the twelve, gets the near-black
    fallback [(28, 28, 28)], and the lookup does not raise. *)
Theorem grade_color_buckets :
  grade_colors.*1
  = [py "A+"; py "A"; py "A-"; py "B+"; py "B"; py "B-";
     py "C+"; py "C"; py "C-"; py "D+"; py "D"; py "F"]
  ∧ Forall (λ token, grade_color (PStr token) = ok (68, 206, 27)%Z) [py "A+"; py "A"]
  ∧ Forall (λ token, grade_color (PStr token) = ok (187, 219, 68)%Z)
      [py "A-"; py "B+"; py "B"]
  ∧ Forall (λ token, grade_color (PStr token) = ok (247, 227, 121)%Z)
      [py "B-"; py "C+"; py "C"]
  ∧ Forall (λ token, grade_color (PStr token) = ok (242, 161, 52)%Z)
      [py "C-"; py "D+"; py "D"]
  ∧ grade_color (PStr (py "F")) = ok (229, 31, 31)%Z
  ∧ NoDup [(68, 206, 27); (187, 219, 68); (247, 227, 121); (242, 161, 52);
           (229, 31, 31); (28, 28, 28)]%Z
  ∧ grade_color (PStr (py "A+")) = grade_color (PStr (py "A"))
  ∧ grade_color (PStr (py "Z")) = ok (28, 28, 28)%Z
  ∧ ∀ token : pystr,
      token ∈ grade_colors.*1 ∨ grade_color (PStr token) = ok (28, 28, 28)%Z.
Proof.
  split; [reflexivity|].
  do 4 (split; [repeat constructor|]).
  split; [reflexivity|].
  split; [compute_done|].
  split; [reflexivity|].
  split; [reflexivity|].
  intros token. destruct (decide (token ∈ grade_colors.*1)) as [Hin|Hout]; [by left|].
  right. unfold grade_color. by rewrite dict_get_absent.
Qed.

(** ** The Renderer *)

Lemma render_bind_ok {A B} (m : render A) (k : A → render B) (made : nat)
    (b : B) (calls : list pdf_call) :
  render_bind m k made = ok (b, calls) →
  ∃ a c1 c2, m made = ok (a, c1) ∧ k a (made + length c1)%nat = ok (b, c2)
             ∧ calls = c1 ++ c2.
Proof.
  unfold render_bind. destruct (m made) as [e|[a c1]]; [done|]. simpl.
  destruct (k a _) as [e|[b' c2]] eqn:Hk; [done|]. simpl.
  unfold ok. intros [= <- <-]. by exists a, c1, c2.
Qed.

Lemma for_each_run {A} (xs : list A) (body : A → render unit) (f : A → list pdf_call) :
  (∀ x made, body x made = ok (tt, f x)) →
  ∀ made, for_each xs body made = ok (tt, xs ≫= f).
Proof.
  intros Hbody. induction xs as [|x xs IH]; intros made; [done|].
  cbn [for_each]. unfold render_bind. rewrite Hbody. cbn. by rewrite IH.
Qed.

Lemma section_titles_app (a b : list pdf_call) :
  section_titles (a ++ b) = section_titles a ++ section_titles b.
Proof.
  induction a as [|c a IH]; [done|]. simpl.
  destruct (title_of c); simpl; by rewrite IH.
Qed.

Lemma images_app (a b : list pdf_call) : images (a ++ b) = images a ++ images b.
Proof. induction a as [|c a IH]; [done|]. destruct c; simpl; by rewrite IH. Qed.

Section Bullets.
Context {A : Type} (text : A → pystr) (x w h : Z).

Lemma section_titles_bullets (qs : list A) (rest : list pdf_call) :
section_titles ((qs ≫= λ q, [set_x x; multi_cell w h (text q)]) ++ rest)
= section_titles rest.
Proof. induction qs as [|q qs IH]; [done|]. exact IH. Qed.

Lemma images_bullets (qs : list A) (rest : list pdf_call) :
images ((qs ≫= λ q, [set_x x; multi_cell w h (text q)]) ++ rest) = images rest.
Proof. induction qs as [|q qs IH]; [done|]. exact IH. Qed.

Lemma grade_badges_bullets (color : rgb) (qs : list A) (rest : list pdf_call) :
grade_badges color ((qs ≫= λ q, [set_x x; multi_cell w h (text q)]) ++ rest)
= grade_badges color rest.
Proof. induction qs as [|q qs IH]; [done|]. exact IH. Qed.

Lemma drawn_texts_bullets (color : rgb) (qs : list A) (rest : list pdf_call) :
drawn_texts color ((qs ≫= λ q, [set_x x; multi_cell w h (text q)]) ++ rest)
= ((λ q, (color, PStr (text q))) <$> qs) ++ drawn_texts color rest.
Proof.
induction qs as [|q qs IH]; [done|].
change (drawn_texts color (((q :: qs) ≫= λ q, [set_x x; multi_cell w h (text q)])
                           ++ rest))
  with ((color, PStr (text q))
        :: drawn_texts color ((qs ≫= λ q, [set_x x; multi_cell w h (text q)])
                              ++ rest)).
by rewrite IH.
Qed.
End Bullets.

Section Drawing.
Context `{Runtime}.
Variable fs : gmap pystr file.
Variables heading_font body_font : option pystr.
Variable icon_paths : list (pystr * pystr).

Lemma draw_heading_run (section : pystr) (grade : pyval) (made : nat) :
  draw_heading fs heading_font icon_paths section grade made
  = let! color := grade_color grade in
    let icon_file := dict_lookup icon_paths section in
    ok (tt,
        (if usable fs icon_file
         then [image (default [] icon_file) section_x (y_after made) 8] else [])
        ++ [heading_font_call fs heading_font 16;
            set_text_color 28 28 28;
            set_xy (section_x + (if icon_file is Some (_ :: _) then 8 + 4 else 0))
              (y_after made);
            cell 0 8 (PStr (section ++ py " - ")) false None;
            set_text_color color.1.1 color.1.2 color.2;
            set_xy (section_x + text_width - 15) (y_after made);
            cell 15 8 grade true (Some (py "R"));
            ln 6]).
Proof.
  unfold draw_heading, render_bind, when, lift, get_y, call, render_ret.
  destruct (grade_color grade) as [e|color]; destruct (usable fs _); reflexivity.
Qed.

Lemma draw_reasoning_run (reasoning : pyval) (made : nat) :
  draw_reasoning fs body_font reasoning made
  = let! lines := splitlines reasoning in
    ok (tt, [body_font_call fs body_font 11;
             set_text_color 28 28 28;
             set_x section_x;
             multi_cell text_width 6 (join (py " ") lines);
             ln 3]).
Proof.
  unfold draw_reasoning, render_bind, lift, call.
  destruct (splitlines reasoning); reflexivity.
Qed.

Lemma draw_quick_wins_run (quick_wins : pyval) (made : nat) :
  draw_quick_wins fs heading_font body_font quick_wins made
  = if truthy quick_wins then
      let! qs := py_iter quick_wins in
      ok (tt, [heading_font_call fs heading_font 13;
               set_text_color 28 28 28;
               set_x section_x;
               cell 0 6 (PStr (py "Quick Wins:")) true None;
               body_font_call fs body_font 10;
               set_text_color 28 28 28]
              ++ (qs ≫= λ q, [set_x section_x;
                              multi_cell text_width 6
                                (textwrap_fill (py "- " ++ py_str q) 110)])
              ++ [ln 6])
    else ok (tt, []).
Proof.
  unfold draw_quick_wins, when. destruct (truthy quick_wins); [|done].
  unfold render_bind at 1 2 3 4 5 6 7. unfold lift, call. simpl.
  destruct (py_iter quick_wins) as [e|qs]; [done|]. simpl.
  unfold render_bind at 1.
  rewrite (for_each_run qs _ (λ q, [set_x section_x;
                              multi_cell text_width 6
                                (textwrap_fill (py "- " ++ py_str q) 110)])); [done|].
  intros q m. reflexivity.
Qed.

(** What one section shows: its title, its badge in the colour of the
    grade, and its icon when the file is there. *)
Lemma draw_section_shows (item : pystr * pyval) (made : nat) (calls : list pdf_call) :
  draw_section fs heading_font body_font icon_paths item made = ok (tt, calls) →
  ∃ color,
    grade_color (section_fields item.2).1.1 = ok color
    ∧ (∀ rest, section_titles (calls ++ rest)
               = PStr (item.1 ++ py " - ") :: section_titles rest)
    ∧ (∀ c0 rest, grade_badges c0 (calls ++ rest)
                  = (color, (section_fields item.2).1.1)
                    :: grade_badges neutral_color rest)
    ∧ (∀ rest, images (calls ++ rest)
               = (if usable fs (dict_lookup icon_paths item.1)
                  then [default [] (dict_lookup icon_paths item.1)] else [])
                 ++ images rest).
Proof.
  unfold draw_section. destruct (section_fields item.2) as [[grade reasoning] qw].
  simpl. unfold render_bind. rewrite draw_heading_run.
  destruct (grade_color grade) as [e|[[r g] b]] eqn:Hcolor; [done|]. simpl.
  rewrite draw_reasoning_run. destruct (splitlines reasoning) as [e|lines]; [done|].
  simpl. rewrite draw_quick_wins_run.
  destruct (truthy qw); [destruct (py_iter qw) as [e|qs]; [done|]|];
    simpl; unfold ok; intros [= <-]; exists (r, g, b); (split; [done|]);
    unfold heading_font_call, body_font_call;
    destruct (usable fs (dict_lookup icon_paths item.1)),
             (usable fs heading_font), (usable fs body_font);
    repeat split; intros; rewrite <-?app_assoc; cbn;
    rewrite <-?app_assoc;
    rewrite ?section_titles_bullets, ?images_bullets, ?grade_badges_bullets;
    rewrite ?bool_decide_eq_true_2 by done; done.
Qed.

(** The sections of a document follow the entries of the report. *)
Lemma for_each_section_shows (entries : list (pystr * pyval)) :
  ∀ (made : nat) (calls : list pdf_call),
    for_each entries (draw_section fs heading_font body_font icon_paths) made
    = ok (tt, calls) →
    section_titles calls = (λ entry, PStr (entry.1 ++ py " - ")) <$> entries
    ∧ (∀ c0, Forall2 (λ entry badge,
               badge.2 = (section_fields entry.2).1.1
               ∧ grade_color badge.2 = ok badge.1)
             entries (grade_badges c0 calls))
    ∧ images calls
      = omap (λ entry,
                let icon_file := dict_lookup icon_paths entry.1 in
                if usable fs icon_file then icon_file else None) entries.
Proof.
  induction entries as [|entry entries IH]; intros made calls.
  - unfold ok. intros [= <-]. by repeat split.
  - cbn [for_each]. intros (u & part & calls' & Hpart & Hrest & ->)%render_bind_ok.
    destruct u.
    destruct (draw_section_shows entry made part Hpart)
      as (color & Hcolor & Htitle & Hbadge & Himage).
    destruct (IH _ _ Hrest) as (IHt & IHb & IHi).
    rewrite Htitle, Himage, IHt, IHi. split; [done|]. split.
    + intros c0. rewrite Hbadge. by constructor.
    + cbn [omap list_omap].
      destruct (dict_lookup icon_paths entry.1) as [[|c p]|]; simpl; try done.
      by destruct (path_exists fs (c :: p)).
Qed.

(** The page set-up never raises and draws neither title nor badge. *)
Lemma draw_preamble_run (header_image : option pystr) (made : nat) :
  ∃ pre,
    draw_preamble fs heading_font body_font header_image made = ok (tt, add_page :: pre)
    ∧ (∀ rest, section_titles (add_page :: pre ++ rest) = section_titles rest)
    ∧ (∀ c0 rest, grade_badges c0 (add_page :: pre ++ rest) = grade_badges c0 rest)
    ∧ (∀ rest, images (add_page :: pre ++ rest)
               = (if usable fs header_image then [default [] header_image] else [])
                 ++ images rest).
Proof.
  unfold draw_preamble, render_bind, when, call, render_ret.
  destruct (usable fs heading_font), (usable fs body_font), (usable fs header_image);
    simpl; eexists; (split; [reflexivity|]); by repeat split.
Qed.

Lemma draw_document_inv (audit : pyval) (header_image : option pystr)
    (made : nat) (calls : list pdf_call) :
  draw_document fs heading_font body_font icon_paths audit header_image made
  = ok (tt, calls) →
  ∃ entries pre sections,
    audit = PDict entries
    ∧ draw_preamble fs heading_font body_font header_image made = ok (tt, pre)
    ∧ for_each entries (draw_section fs heading_font body_font icon_paths)
        (made + length pre)%nat = ok (tt, sections)
    ∧ calls = pre ++ sections.
Proof.
  unfold draw_document.
  intros ([] & pre & rest & Hpre & Hrest & ->)%render_bind_ok.
  apply render_bind_ok in Hrest as (entries & none & sections & Hitems & Hloop & ->).
  unfold lift in Hitems. destruct audit; try done. simpl in Hitems.
  unfold ok in Hitems. injection Hitems as <- <-.
  rewrite Nat.add_0_r in Hloop. by exists entries0, pre, sections.
Qed.

(** A section whose value is not a dict is drawn without raising. *)
Lemma draw_section_non_dict (section : pystr) (details : pyval) (made : nat) :
  (∀ d, details ≠ PDict d) →
  section_fields details = (PStr (py "N/A"), PStr (py_str details), PList [])
  ∧ ∃ calls,
      draw_section fs heading_font body_font icon_paths (section, details) made
      = ok (tt, calls)
      ∧ ∀ c0, drawn_texts c0 calls
              = [(neutral_color, PStr (section ++ py " - "));
                 (neutral_color, PStr (py "N/A"));
                 (neutral_color,
                  PStr (join (py " ") (splitlines_from [] (py_str details))))].
Proof.
  intros Hshape.
  assert (section_fields details
          = (PStr (py "N/A"), PStr (py_str details), PList [])) as Hfields.
  { destruct details; try done. by edestruct Hshape. }
  split; [done|].
  unfold draw_section. simpl. rewrite Hfields.
  assert (grade_color (PStr (py "N/A")) = ok neutral_color) as Hcolor by reflexivity.
  unfold render_bind. rewrite draw_heading_run, Hcolor. simpl.
  eexists. split; [reflexivity|]. intros c0.
  unfold heading_font_call, body_font_call.
  by destruct (usable fs (dict_lookup icon_paths section)),
    (usable fs heading_font), (usable fs body_font).
Qed.

(** A section is drawn without an exception exactly when it is
    [drawable]. *)
Lemma draw_section_runs_iff (item : pystr * pyval) (made : nat) :
  (∃ calls,
     draw_section fs heading_font body_font icon_paths item made = ok (tt, calls))
  ↔ drawable item.2.
Proof.
  unfold drawable, draw_section.
  destruct (section_fields item.2) as [[grade reasoning] qw]. simpl.
  unfold render_bind. rewrite draw_heading_run. split.
  - intros [calls Hrun].
    destruct (grade_color grade) as [e|color]; [done|]. simpl in Hrun.
    rewrite draw_reasoning_run in Hrun.
    destruct reasoning; try done. simpl in Hrun.
    rewrite draw_quick_wins_run in Hrun.
    split; [by eexists|]. split; [by eexists|]. intros Hqw. rewrite Hqw in Hrun.
    destruct (py_iter qw) as [e|qs]; [done|]. by eexists.
  - intros ([color ->] & [text ->] & Hqw). simpl.
    rewrite draw_quick_wins_run.
    destruct (truthy qw); [|by eexists].
    destruct (Hqw eq_refl) as [qs ->]. by eexists.
Qed.

Lemma for_each_section_total (entries : list (pystr * pyval)) :
  Forall (λ entry, ∀ made, ∃ part,
            draw_section fs heading_font body_font icon_paths entry made
            = ok (tt, part)) entries →
  ∀ made, ∃ calls,
    for_each entries (draw_section fs heading_font body_font icon_paths) made
    = ok (tt, calls).
Proof.
  induction 1 as [|entry entries Hentry _ IH]; intros made; [by eexists|].
  destruct (Hentry made) as [part Hpart].
  destruct (IH (made + length part)%nat) as [calls Hcalls].
  exists (part ++ calls). cbn [for_each]. unfold render_bind.
  by rewrite Hpart; simpl; rewrite Hcalls.
Qed.
End Drawing.

(** C6. A section whose value is not a dict gets the grade [N/A], which
    has the neutral colour, the stringified value as its reasoning and
    no quick wins: the section is drawn, without raising, as its title,
    the badge [N/A] in the neutral colour and the stringified value, its
    line breaks turned into spaces, with no [Quick Wins] block. *)
Theorem non_dict_section_rendering `{Runtime} (fs : gmap pystr file)
    (heading_font body_font : option pystr) (icon_paths : list (pystr * pystr))
    (section : pystr) (details : pyval) (made : nat) :
  (∀ d, details ≠ PDict d) →
  section_fields details = (PStr (py "N/A"), PStr (py_str details), PList [])
  ∧ grade_color (PStr (py "N/A")) = ok (28, 28, 28)%Z
  ∧ ∃ calls,
      draw_section fs heading_font body_font icon_paths (section, details) made
      = ok (tt, calls)
      ∧ ∀ c0, drawn_texts c0 calls
              = [((28, 28, 28)%Z, PStr (section ++ py " - "));
                 ((28, 28, 28)%Z, PStr (py "N/A"));
                 ((28, 28, 28)%Z,
                  PStr (join (py " ") (splitlines_from [] (py_str details))))].
Proof.
  intros Hshape.
  destruct (draw_section_non_dict fs heading_font body_font icon_paths
              section details made Hshape) as [Hfields Hdrawn].
  by repeat split.
Qed.

Lemma non_dict_section_rendering_witness :
  ∃ calls,
    draw_section (H:=example_runtime) ∅ default_heading_font default_body_font
      default_icon_paths (py "raw", PStr (py "No JSON here.")) 5%nat
    = ok (tt, calls)
    ∧ drawn_texts black calls
      = [((28, 28, 28)%Z, PStr (py "raw - "));
         ((28, 28, 28)%Z, PStr (py "N/A"));
         ((28, 28, 28)%Z, PStr (py "No JSON here."))].
Proof.
  destruct (non_dict_section_rendering (H:=example_runtime) ∅ default_heading_font
              default_body_font default_icon_paths (py "raw")
              (PStr (py "No JSON here.")) 5%nat)
    as (_ & _ & calls & Hrun & Htexts); [done|].
  exists calls. split; [exact Hrun|]. exact (Htexts black).
Defined.

(** C10. In a section whose value is a dict, a missing [grade] gives
    [N/A], a missing [reasoning] the empty string and missing
    [quick_wins] the empty list, for which the [Quick Wins] block makes
    no call at all; with the three keys missing the section is drawn,
    without raising, as its title, the badge [N/A] and an empty
    paragraph. *)
Theorem dict_section_defaults `{Runtime} (fs : gmap pystr file)
    (heading_font body_font : option pystr) (icon_paths : list (pystr * pystr))
    (section : pystr) (d : list (pystr * pyval)) (made : nat) :
  (py "grade" ∉ d.*1 → (section_fields (PDict d)).1.1 = PStr (py "N/A"))
  ∧ (py "reasoning" ∉ d.*1 → (section_fields (PDict d)).1.2 = PStr [])
  ∧ (py "quick_wins" ∉ d.*1 →
     (section_fields (PDict d)).2 = PList []
     ∧ draw_quick_wins fs heading_font body_font (section_fields (PDict d)).2 made
       = ok (tt, []))
  ∧ (py "grade" ∉ d.*1 → py "reasoning" ∉ d.*1 → py "quick_wins" ∉ d.*1 →
     ∃ calls,
       draw_section fs heading_font body_font icon_paths (section, PDict d) made
       = ok (tt, calls)
       ∧ ∀ c0, drawn_texts c0 calls
               = [((28, 28, 28)%Z, PStr (section ++ py " - "));
                  ((28, 28, 28)%Z, PStr (py "N/A"));
                  ((28, 28, 28)%Z, PStr [])]).
Proof.
  assert (py "quick_wins" ∉ d.*1 →
          (section_fields (PDict d)).2 = PList []
          ∧ draw_quick_wins fs heading_font body_font (section_fields (PDict d)).2 made
            = ok (tt, [])) as Hqw.
  { intros Hkey. simpl. rewrite (dict_get_absent _ _ _ Hkey). split; [done|].
    by rewrite draw_quick_wins_run. }
  split; [|split; [|split; [exact Hqw|]]].
  - intros Hkey. simpl. by rewrite dict_get_absent.
  - intros Hkey. simpl. by rewrite dict_get_absent.
  - intros Hg Hr Hq. unfold draw_section. simpl.
    rewrite !dict_get_absent by done.
    assert (grade_color (PStr (py "N/A")) = ok neutral_color) as Hcolor by reflexivity.
    unfold render_bind. rewrite draw_heading_run, Hcolor. simpl.
    eexists. split; [reflexivity|]. intros c0.
    unfold heading_font_call, body_font_call.
    by destruct (usable fs (dict_lookup icon_paths section)),
      (usable fs heading_font), (usable fs body_font).
Qed.

Lemma dict_section_defaults_witness :
  (section_fields (H:=example_runtime) (PDict [(py "grade", PStr (py "B"))])).1.2
  = PStr []
  ∧ draw_quick_wins (H:=example_runtime) ∅ default_heading_font default_body_font
      (section_fields (H:=example_runtime) (PDict [(py "grade", PStr (py "B"))])).2 7%nat
    = ok (tt, [])
  ∧ ∃ calls,
      draw_section (H:=example_runtime) ∅ default_heading_font default_body_font
        default_icon_paths (py "Brand", PDict []) 7%nat = ok (tt, calls)
      ∧ drawn_texts black calls
        = [((28, 28, 28)%Z, PStr (py "Brand - "));
           ((28, 28, 28)%Z, PStr (py "N/A"));
           ((28, 28, 28)%Z, PStr [])].
Proof.
  destruct (dict_section_defaults (H:=example_runtime) ∅ default_heading_font
              default_body_font default_icon_paths (py "Brand")
              [(py "grade", PStr (py "B"))] 7%nat) as (_ & Hr & Hq & _).
  destruct (dict_section_defaults (H:=example_runtime) ∅ default_heading_font
              default_body_font default_icon_paths (py "Brand") [] 7%nat)
    as (_ & _ & _ & Hall).
  split; [apply Hr; compute_done|].
  split; [apply Hq; compute_done|].
  destruct Hall as (calls & Hrun & Htexts); [apply not_elem_of_nil..|].
  exists calls. split; [exact Hrun|]. exact (Htexts black).
Defined.

(** What a completed run of [build_pdf] wrote. *)
Lemma build_pdf_inv `{Runtime} (fs : gmap pystr file) (audit : pyval)
    (website_url : pystr) (header_image heading_font body_font : option pystr)
    (icon_paths : option (list (pystr * pystr)))
    (out_file : pystr) (files : gmap pystr file) :
  build_pdf fs audit website_url header_image heading_font body_font icon_paths
  = ok (out_file, files) →
  ∃ calls,
    draw_document fs heading_font body_font (default default_icon_paths icon_paths)
      audit header_image 0%nat = ok (tt, calls)
    ∧ out_file = py "audit_" ++ sanitize_filename website_url ++ py ".pdf"
    ∧ files = <[out_file := pdf_document calls]> fs.
Proof.
  unfold build_pdf. destruct (draw_document _ _ _ _ _ _ _) as [e|[[] calls]]; [done|].
  simpl. unfold ok. intros [= <- <-]. by exists calls.
Qed.

(** The fallback report is always rendered. *)
Lemma build_pdf_fallback_runs `{Runtime} (fs : gmap pystr file) (raw : pystr)
    (website_url : pystr) (header_image heading_font body_font : option pystr)
    (icon_paths : option (list (pystr * pystr))) :
  ∃ out_file files,
    build_pdf fs (fallback_report raw) website_url header_image heading_font
      body_font icon_paths = ok (out_file, files).
Proof.
  unfold build_pdf, draw_document.
  destruct (draw_preamble_run fs heading_font body_font header_image 0)
    as (pre & Hpre & _).
  destruct (for_each_section_total fs heading_font body_font
              (default default_icon_paths icon_paths)
              [(py "error", PStr (py "Could not parse JSON")); (py "raw", PStr raw)])
    with (made := length (add_page :: pre)) as [calls Hcalls].
  { repeat constructor; intros made;
      edestruct draw_section_non_dict as (_ & part & Hpart & _); eauto; done. }
  unfold render_bind at 1. rewrite Hpre. simpl.
  unfold render_bind, lift. simpl. rewrite Nat.add_0_r.
  simpl in Hcalls. rewrite Hcalls. simpl. by eexists _, _.
Qed.

(** [build_pdf] completes exactly on a dict whose values are all
    [drawable]. *)
Lemma build_pdf_completes_iff `{Runtime} (fs : gmap pystr file) (audit : pyval)
    (website_url : pystr) (header_image heading_font body_font : option pystr)
    (icon_paths : option (list (pystr * pystr))) :
  (∃ out_file files,
     build_pdf fs audit website_url header_image heading_font body_font icon_paths
     = ok (out_file, files))
  ↔ ∃ entries, audit = PDict entries ∧ Forall (λ entry, drawable entry.2) entries.
Proof.
  split.
  - intros (out_file & files & (calls & Hdoc & _)%build_pdf_inv).
    apply draw_document_inv in Hdoc as (entries & pre & sections & -> & _ & Hloop & _).
    exists entries. split; [done|].
    revert Hloop. generalize (0 + length pre)%nat. revert sections.
    induction entries as [|entry entries IH]; intros sections made Hloop; [done|].
    cbn [for_each] in Hloop.
    apply render_bind_ok in Hloop as ([] & part & rest & Hpart & Hrest & _).
    constructor; [|by eapply IH].
    eapply draw_section_runs_iff. by eexists.
  - intros (entries & -> & Hentries).
    unfold build_pdf, draw_document.
    destruct (draw_preamble_run fs heading_font body_font header_image 0)
      as (pre & Hpre & _).
    destruct (for_each_section_total fs heading_font body_font
                (default default_icon_paths icon_paths) entries)
      with (made := length (add_page :: pre)) as [calls Hcalls].
    { eapply Forall_impl; [exact Hentries|]. intros entry Hentry made.
      by apply draw_section_runs_iff. }
    unfold render_bind at 1. rewrite Hpre. simpl.
    unfold render_bind, lift. simpl. rewrite Nat.add_0_r.
    simpl in Hcalls. rewrite Hcalls. simpl. by eexists _, _.
Qed.

(** C8, as stated, fails: the sections drawn are the entries of the
    report, not the four fixed ones. The fallback report is drawn as
    the two sections [error] and [raw], and a report with the single
    entry [Brand] as one section. *)
Lemma build_pdf_four_sections_counterexample :
  section_titles
    (document_of
       (build_pdf (H:=example_runtime) ∅ (fallback_report (py "No JSON here."))
          (py "example.com") default_header_image default_heading_font
          default_body_font None))
  = [PStr (py "error - "); PStr (py "raw - ")]
  ∧ section_titles
      (document_of
         (build_pdf (H:=example_runtime) ∅ example_object
            (py "example.com") default_header_image default_heading_font
            default_body_font None))
    = [PStr (py "Brand - ")]
  ∧ [PStr (py "error - "); PStr (py "raw - ")]
    ≠ [PStr (py "Brand - "); PStr (py "Content - "); PStr (py "Website - ");
       PStr (py "Marketing - ")].
Proof. repeat split; [vm_compute; reflexivity..|]. discriminate. Qed.

(** C8, amended. Whenever [build_pdf] completes, the report is a dict
    and the document written is not empty and shows one section per
    entry of the report, in the order of the report: the title line is
    the key of the entry followed by [ - ], the badge on the right is the
    grade of the entry in the colour of that grade, and the icon of the
    entry is placed when its file is there. The fallback report is
    always rendered: a non-empty document with the two sections [error]
    and [raw], each with the grade [N/A] in the neutral colour. *)
Theorem build_pdf_draws_report_entries `{Runtime} :
  (∀ (fs : gmap pystr file) (audit : pyval) (website_url : pystr)
     (header_image heading_font body_font : option pystr)
     (icon_paths : option (list (pystr * pystr)))
     (out_file : pystr) (files : gmap pystr file),
     build_pdf fs audit website_url header_image heading_font body_font icon_paths
     = ok (out_file, files) →
     ∃ entries calls,
       audit = PDict entries
       ∧ files !! out_file = Some (pdf_document calls)
       ∧ calls ≠ []
       ∧ section_titles calls = (λ entry, PStr (entry.1 ++ py " - ")) <$> entries
       ∧ Forall2 (λ entry badge,
                    badge.2 = (section_fields entry.2).1.1
                    ∧ grade_color badge.2 = ok badge.1)
           entries (grade_badges black calls)
       ∧ images calls
         = (if usable fs header_image then [default [] header_image] else [])
           ++ omap (λ entry,
                      let icon_file :=
                        dict_lookup (default default_icon_paths icon_paths) entry.1 in
                      if usable fs icon_file then icon_file else None) entries)
  ∧ (∀ (fs : gmap pystr file) (raw website_url : pystr)
       (header_image heading_font body_font : option pystr)
       (icon_paths : option (list (pystr * pystr))),
       ∃ out_file files calls,
         build_pdf fs (fallback_report raw) website_url header_image heading_font
           body_font icon_paths = ok (out_file, files)
         ∧ files !! out_file = Some (pdf_document calls)
         ∧ calls ≠ []
         ∧ section_titles calls = [PStr (py "error - "); PStr (py "raw - ")]
         ∧ grade_badges black calls
           = [((28, 28, 28)%Z, PStr (py "N/A")); ((28, 28, 28)%Z, PStr (py "N/A"))]).
Proof.
  assert (∀ (fs : gmap pystr file) (audit : pyval) (website_url : pystr)
     (header_image heading_font body_font : option pystr)
     (icon_paths : option (list (pystr * pystr)))
     (out_file : pystr) (files : gmap pystr file),
     build_pdf fs audit website_url header_image heading_font body_font icon_paths
     = ok (out_file, files) →
     ∃ entries calls,
       audit = PDict entries
       ∧ files !! out_file = Some (pdf_document calls)
       ∧ calls ≠ []
       ∧ section_titles calls = (λ entry, PStr (entry.1 ++ py " - ")) <$> entries
       ∧ Forall2 (λ entry badge,
                    badge.2 = (section_fields entry.2).1.1
                    ∧ grade_color badge.2 = ok badge.1)
           entries (grade_badges black calls)
       ∧ images calls
         = (if usable fs header_image then [default [] header_image] else [])
           ++ omap (λ entry,
                      let icon_file :=
                        dict_lookup (default default_icon_paths icon_paths) entry.1 in
                      if usable fs icon_file then icon_file else None) entries)
    as Hgeneral.
  { intros fs audit website_url header_image heading_font body_font icon_paths
      out_file files (calls & Hdoc & _ & ->)%build_pdf_inv.
    apply draw_document_inv in Hdoc as (entries & pre & sections & -> & Hpre & Hloop & ->).
    destruct (draw_preamble_run fs heading_font body_font header_image 0)
      as (pre' & Hpre' & Htitle & Hbadge & Himage).
    rewrite Hpre in Hpre'. unfold ok in Hpre'. injection Hpre' as ->.
    apply for_each_section_shows in Hloop as (Hts & Hbs & His).
    exists entries, (add_page :: pre' ++ sections).
    split; [done|]. split; [by rewrite lookup_insert_eq|]. split; [done|].
    rewrite Htitle, Hbadge, Himage, Hts, His. by repeat split. }
  split; [exact Hgeneral|].
  intros fs raw website_url header_image heading_font body_font icon_paths.
  destruct (build_pdf_fallback_runs fs raw website_url header_image heading_font
              body_font icon_paths) as (out_file & files & Hrun).
  destruct (Hgeneral _ _ _ _ _ _ _ _ _ Hrun)
    as (entries & calls & Hentries & Hfile & Hne & Hts & Hbs & _).
  unfold fallback_report in Hentries. injection Hentries as <-.
  exists out_file, files, calls. do 3 (split; [done|]). split; [exact Hts|].
  simpl in Hbs.
  apply Forall2_cons_inv_l in Hbs as ([c1 g1] & bs1 & [Hg1 Hc1] & Hbs & ->).
  apply Forall2_cons_inv_l in Hbs as ([c2 g2] & bs2 & [Hg2 Hc2] & Hbs & ->).
  apply Forall2_nil_inv_l in Hbs as ->.
  simpl in *. subst g1 g2.
  assert (grade_color (PStr (py "N/A")) = ok (28, 28, 28)%Z) as Hna by reflexivity.
  rewrite Hna in Hc1, Hc2. unfold ok in Hc1, Hc2.
  by injection Hc1 as <-; injection Hc2 as <-.
Qed.

Lemma build_pdf_draws_report_entries_witness :
  ∃ out_file files calls,
    build_pdf (H:=example_runtime) ∅ example_object (py "example.com")
      default_header_image default_heading_font default_body_font None
    = ok (out_file, files)
    ∧ files !! out_file = Some (pdf_document calls)
    ∧ section_titles calls = [PStr (py "Brand - ")]
    ∧ grade_badges black calls = [((68, 206, 27)%Z, PStr (py "A"))].
Proof.
  destruct (build_pdf (H:=example_runtime) ∅ example_object (py "example.com")
              default_header_image default_heading_font default_body_font None)
    as [e|[out_file files]] eqn:Hrun; [vm_compute in Hrun; discriminate|].
  exists out_file, files.
  destruct (proj1 (build_pdf_draws_report_entries (H:=example_runtime))
              ∅ example_object (py "example.com")
              default_header_image default_heading_font default_body_font None
              out_file files Hrun)
    as (entries & calls & Hentries & Hfile & _ & Hts & Hbs & _).
  exists calls. split; [reflexivity|]. split; [exact Hfile|].
  unfold example_object in Hentries. injection Hentries as <-.
  split; [exact Hts|].
  apply Forall2_cons_inv_l in Hbs as ([c g] & bs & [Hg Hc] & Hbs & ->).
  apply Forall2_nil_inv_l in Hbs as ->.
  simpl in Hg, Hc. subst g. vm_compute in Hc. injection Hc as <-. reflexivity.
Defined.

(** C3, as stated, fails: the file is not written at the path given and
    the name returned is not that path. Given the path
    [/tmp/example_com_audit.pdf] the renderer writes and returns
    [audit__tmp_example_com_audit.pdf.pdf], and nothing is at the path
    given. *)
Lemma build_pdf_target_path_counterexample :
  ∃ files,
    build_pdf (H:=example_runtime) ∅ (fallback_report (py "No JSON here."))
      (py "/tmp/example_com_audit.pdf")
      default_header_image default_heading_font default_body_font None
    = ok (py "audit__tmp_example_com_audit.pdf.pdf", files)
    ∧ files !! py "/tmp/example_com_audit.pdf" = None
    ∧ is_Some (files !! py "audit__tmp_example_com_audit.pdf.pdf")
    ∧ py "audit__tmp_example_com_audit.pdf.pdf" ≠ py "/tmp/example_com_audit.pdf".
Proof.
  vm_compute. eexists. split; [reflexivity|].
  split; [vm_compute; reflexivity|]. split; [|discriminate].
  vm_compute. eexists. reflexivity.
Qed.

(** C3, amended. Whenever [build_pdf] completes it has written exactly
    one file, over whatever was there, and returns its name; the name
    is [audit_], the sanitized second argument and [.pdf], which is
    never the second argument itself, and every other path, the one
    given included, is left as it was. *)
Theorem build_pdf_writes_one_named_file `{Runtime} (fs : gmap pystr file)
    (audit : pyval) (website_url : pystr)
    (header_image heading_font body_font : option pystr)
    (icon_paths : option (list (pystr * pystr)))
    (out_file : pystr) (files : gmap pystr file) :
  build_pdf fs audit website_url header_image heading_font body_font icon_paths
  = ok (out_file, files) →
  out_file = py "audit_" ++ sanitize_filename website_url ++ py ".pdf"
  ∧ out_file ≠ website_url
  ∧ (∃ calls, files = <[out_file := pdf_document calls]> fs)
  ∧ is_Some (files !! out_file)
  ∧ ∀ path, path ≠ out_file → files !! path = fs !! path.
Proof.
  intros (calls & _ & Hname & ->)%build_pdf_inv.
  split; [done|]. split.
  - intros Heq. rewrite Heq in Hname. apply (f_equal length) in Hname.
    unfold sanitize_filename in Hname.
    rewrite !length_app, length_fmap in Hname.
    change (length (py "audit_")) with 6%nat in Hname.
    change (length (py ".pdf")) with 4%nat in Hname. lia.
  - split; [by exists calls|]. split.
    + rewrite lookup_insert_eq. by eexists.
    + intros path Hpath. by rewrite lookup_insert_ne.
Qed.

Lemma build_pdf_writes_one_named_file_witness :
  ∃ out_file files,
    build_pdf (H:=example_runtime) ∅ example_object (py "https://example.com")
      default_header_image default_heading_font default_body_font None
    = ok (out_file, files)
    ∧ out_file = py "audit_https___example.com.pdf"
    ∧ is_Some (files !! out_file)
    ∧ files !! py "https://example.com" = None.
Proof.
  destruct (build_pdf (H:=example_runtime) ∅ example_object
              (py "https://example.com")
              default_header_image default_heading_font default_body_font None)
    as [e|[out_file files]] eqn:Hrun; [vm_compute in Hrun; discriminate|].
  exists out_file, files.
  destruct (build_pdf_writes_one_named_file (H:=example_runtime)
              ∅ example_object (py "https://example.com")
              default_header_image default_heading_font default_body_font None
              out_file files Hrun)
    as (Hname & Hne & _ & Hsome & Hother).
  split; [reflexivity|]. split; [exact Hname|]. split; [exact Hsome|].
  rewrite Hother; [apply lookup_empty|]. by intros Heq; apply Hne.
Defined.

(** ** The model on small inputs *)

Example re_search_braces_spans_first_to_last :
  re_search_braces (py "pre {a} mid {b} post") = Some (py "{a} mid {b}")
  ∧ re_search_braces (py "closing } before opening {") = None.
Proof. split; reflexivity. Qed.

Example loads_example_object :
  Json.loads (lbrace :: example_object_body ++ [rbrace]) = ok example_object
  ∧ Json.loads (py " [1, -2.5e3, true, null] ")
    = ok (PList [PInt 1; PFloat (py "-2.5e3"); PBool true; PNone])
  ∧ Json.loads (py "{} trailing") = raise JSONDecodeError.
Proof. repeat split; reflexivity. Qed.

Example dumps_example_rubric :
  Json.dumps [(py "Brand", [0x2019; 10])]
  = py "{" ++ quoted (py "Brand") ++ py ": "
    ++ quoted (Json.backslash :: py "u2019" ++ Json.backslash :: py "n") ++ py "}".
Proof. reflexivity. Qed.

Example splitlines_example :
  splitlines_from [] [97; 10; 10; 98; 13; 10; 99; 13; 100; 10]
  = [[97]; []; [98]; [99]; [100]]
  ∧ splitlines_from [] [] = [].
Proof. split; reflexivity. Qed.

Example sanitize_filename_example :
  sanitize_filename (H:=example_runtime) (py "https://example.com/a b:c")
  = py "https___example.com_a b_c".
Proof. reflexivity. Qed.

(** * Further properties *)

(** ** More on the Analyzer *)

Lemma greedy_to_rbrace_Some_inv (s m : pystr) :
  greedy_to_rbrace s = Some m →
  ∃ mid post, m = mid ++ [rbrace] ∧ s = m ++ post ∧ rbrace ∉ post.
Proof.
  revert m. induction s as [|c s IH]; intros m; simpl; [done|].
  destruct (greedy_to_rbrace s) as [m'|] eqn:Hs.
  - intros [= <-]. destruct (IH m' eq_refl) as (mid & post & -> & Hs' & Hpost).
    exists (c :: mid), post. by rewrite Hs' at 1.
  - destruct (c =? rbrace) eqn:Hc; [|done]. intros [= <-].
    apply N.eqb_eq in Hc as ->. exists [], s.
    by split; [|split; [|apply greedy_to_rbrace_None_inv]].
Qed.

Lemma re_search_braces_Some_inv (raw m : pystr) :
  re_search_braces raw = Some m →
  ∃ pre mid post,
    raw = pre ++ m ++ post ∧ m = lbrace :: mid ++ [rbrace]
    ∧ (lbrace ∉ pre) ∧ (rbrace ∉ post).
Proof.
  revert m. induction raw as [|c raw IH]; intros m; simpl; [done|].
  destruct (c =? lbrace) eqn:Hc.
  - apply N.eqb_eq in Hc as ->.
    destruct (greedy_to_rbrace raw) as [m'|] eqn:Hg.
    + intros [= <-].
      apply greedy_to_rbrace_Some_inv in Hg as (mid & post & -> & -> & Hpost).
      exists [], mid, post. split_and!; try done. apply not_elem_of_nil.
    + intros (pre & mid & post & -> & -> & Hpre & Hpost)%IH.
      apply greedy_to_rbrace_None_inv in Hg. exfalso. apply Hg.
      rewrite !elem_of_app, !elem_of_cons, !elem_of_app, !elem_of_cons. tauto.
  - intros (pre & mid & post & -> & -> & Hpre & Hpost)%IH.
    exists (c :: pre), mid, post. split_and!; try done.
    apply not_elem_of_cons. split; [|done].
    intros <-. by rewrite N.eqb_refl in Hc.
Qed.

(** X1. The search of the brace pattern finds exactly the text from the
    first opening brace of the reply to its last closing brace: what it
    returns starts and ends with a brace, nothing before it holds an
    opening brace and nothing after it a closing one; and it finds
    nothing exactly when no closing brace follows an opening one. *)
Theorem re_search_braces_characterised (raw : pystr) :
  (∀ m, (re_search_braces raw = Some m) ↔
        (∃ pre mid post,
           raw = pre ++ m ++ post ∧ m = lbrace :: mid ++ [rbrace]
           ∧ (lbrace ∉ pre) ∧ (rbrace ∉ post)))
  ∧ (re_search_braces raw = None ↔
     ∀ a b, raw = a ++ lbrace :: b → rbrace ∉ b).
Proof.
  split; [|apply re_search_braces_None].
  intros m. split; [apply re_search_braces_Some_inv|].
  intros (pre & mid & post & -> & -> & Hpre & Hpost).
  rewrite <-(re_search_braces_first_to_last pre mid post Hpre Hpost).
  f_equal. simpl. by rewrite <-!app_assoc.
Qed.

(** X2. [analyze] raises exactly when the model call raises, and then
    with the exception of the call: nothing the reply holds makes it
    raise, and a failure of the call is not caught. *)
Theorem analyze_raises_iff_client_raises
    (responses_create : request → result pystr)
    (json_loads : pystr → result pyval)
    (text : pystr) (rubric : list (pystr * pystr)) (model : pystr) (e : exn) :
  analyze responses_create json_loads text rubric model = raise e
  ↔ responses_create (Request model (build_prompt text rubric) (4 # 10)) = raise e.
Proof.
  unfold analyze. cbv zeta.
  destruct (responses_create _) as [e'|raw]; simpl; [unfold raise; split; intros [= ->]; reflexivity|].
  destruct (parse_reply_never_raises json_loads raw) as [report ->].
  split; discriminate.
Qed.

(** ** The [json] module *)

Lemma object_members_dict (fuel : nat) :
  ∀ (s : pystr) (pairs : list (pystr * pyval)) (v : pyval) (r : pystr),
    Json.object_members fuel s pairs = ok (v, r) → ∃ d, v = PDict d.
Proof.
  induction fuel as [|fuel IH]; intros s pairs v r; [done|]. simpl.
  destruct (Json.scanstring s) as [e|k]; [done|]. simpl.
  destruct (Json.skip_ws k.2) as [|colon after]; [done|].
  destruct (colon =? chr ":"); [|done].
  destruct (Json.scan_once fuel (Json.skip_ws after)) as [e|w]; [done|]. simpl.
  destruct (Json.skip_ws w.2) as [|d rest]; [done|].
  destruct (d =? rbrace); [unfold ok; intros [= <- _]; by eexists|].
  destruct (d =? chr ","); [|done].
  destruct (Json.skip_ws rest) as [|q rest2]; [done|].
  destruct (q =? Json.quote); [|done]. apply IH.
Qed.

Lemma scan_once_brace (fuel : nat) (rest : pystr) (v : pyval) (r : pystr) :
  Json.scan_once fuel (lbrace :: rest) = ok (v, r) → ∃ d, v = PDict d.
Proof.
  destruct fuel as [|fuel]; [done|]. simpl.
  change (lbrace =? Json.quote) with false. change (lbrace =? lbrace) with true.
  cbv iota.
  destruct (Json.skip_ws rest) as [|d rest2]; [done|].
  destruct (d =? rbrace); [unfold ok; intros [= <- _]; by eexists|].
  destruct (d =? Json.quote); [|done]. apply object_members_dict.
Qed.

Lemma loads_brace (rest : pystr) (v : pyval) :
  Json.loads (lbrace :: rest) = ok v → ∃ d, v = PDict d.
Proof.
  unfold Json.loads.
  change (Json.skip_ws (lbrace :: rest)) with (lbrace :: rest). cbv zeta.
  destruct (Json.scan_once _ _) as [e|[w r]] eqn:Hscan; [done|]. simpl.
  destruct (Json.skip_ws r); [|done]. unfold ok. intros [= <-].
  by eapply scan_once_brace.
Qed.

Lemma parse_reply_loads_dict (raw : pystr) :
  ∃ entries, parse_reply Json.loads raw = ok (PDict entries).
Proof.
  destruct (re_search_braces raw) as [m|] eqn:Hsearch.
  - rewrite (parse_reply_match _ _ _ Hsearch).
    apply re_search_braces_Some_inv in Hsearch as (pre & mid & post & _ & -> & _).
    destruct (Json.loads _) as [e|v] eqn:Hloads; [by eexists|].
    apply loads_brace in Hloads as [d ->]. by eexists.
  - rewrite (parse_reply_no_match _ _ Hsearch). by eexists.
Qed.

(** X3. With the deserializer of the standard library, what [analyze]
    returns is always a dict: the text handed to [json.loads] starts
    with an opening brace, so a value that is not an object is never
    the report. *)
Theorem analyze_returns_dict
    (responses_create : request → result pystr)
    (text : pystr) (rubric : list (pystr * pystr)) (model : pystr) :
  (∃ e, analyze responses_create Json.loads text rubric model = raise e)
  ∨ (∃ entries,
       analyze responses_create Json.loads text rubric model = ok (PDict entries)).
Proof.
  unfold analyze. cbv zeta.
  destruct (responses_create _) as [e|raw]; simpl; [left; by exists e|]. right.
  apply parse_reply_loads_dict.
Qed.

Lemma hex_digit_printable (d : N) : d < 16 → 32 <= Json.hex_digit d <= 126.
Proof. unfold Json.hex_digit. intros Hd. destruct (d <? 10) eqn:Hlt; lia. Qed.

Lemma u_escape_printable (n : N) : Forall (λ c, 32 <= c <= 126) (Json.u_escape n).
Proof.
  unfold Json.u_escape, Json.hex4.
  repeat constructor; try (apply hex_digit_printable, N.mod_lt; lia);
    vm_compute; discriminate.
Qed.

Lemma escape_char_printable (c : N) : Forall (λ c, 32 <= c <= 126) (Json.escape_char c).
Proof.
  unfold Json.escape_char.
  do 7 (case_match; [repeat constructor; vm_compute; discriminate|]).
  destruct ((32 <=? c) && (c <=? 126)) eqn:Hrange.
  - apply andb_true_iff in Hrange as [?%N.leb_le ?%N.leb_le].
    repeat constructor; lia.
  - case_match; [apply u_escape_printable|].
    apply Forall_app. split; apply u_escape_printable.
Qed.

Lemma encode_basestring_ascii_printable (s : pystr) :
  Forall (λ c, 32 <= c <= 126) (Json.encode_basestring_ascii s).
Proof.
  unfold Json.encode_basestring_ascii. constructor; [vm_compute; split; discriminate|].
  apply Forall_app. split; [|repeat constructor; vm_compute; discriminate].
  induction s as [|c s IH]; [constructor|].
  change ((c :: s) ≫= Json.escape_char) with (Json.escape_char c ++ (s ≫= Json.escape_char)).
  apply Forall_app. split; [apply escape_char_printable|exact IH].
Qed.

(** X4. What [json.dumps] makes of the rubric holds only the printable
    ASCII characters from the space to the tilde, whatever the rubric
    holds: every other character is written as an escape. *)
Theorem dumps_is_printable_ascii (rubric : list (pystr * pystr)) :
  Forall (λ c, 32 <= c <= 126) (Json.dumps rubric).
Proof.
  assert (∀ kv, Forall (λ c, 32 <= c <= 126) (Json.dumps_item kv)) as Hitem.
  { intros kv. unfold Json.dumps_item. rewrite !Forall_app.
    split_and!; [apply encode_basestring_ascii_printable| |
                 apply encode_basestring_ascii_printable].
    change (py ": ") with [58; 32]. repeat constructor; vm_compute; discriminate. }
  unfold Json.dumps. change (py "{") with [123]. change (py "}") with [125].
  rewrite !Forall_app.
  split_and!; [repeat constructor; vm_compute; discriminate| |
               repeat constructor; vm_compute; discriminate].
  induction rubric as [|kv rubric IH]; [constructor|].
  destruct rubric as [|kv' rubric]; [apply Hitem|].
  change (Forall (λ c, 32 <= c <= 126)
            (Json.dumps_item kv ++ [44; 32]
             ++ join (py ", ") (Json.dumps_item <$> kv' :: rubric))).
  rewrite !Forall_app. split_and!; [apply Hitem| |exact IH].
  repeat constructor; vm_compute; discriminate.
Qed.

Lemma hex_val_hex_digit (d : N) : d < 16 → Json.hex_val (Json.hex_digit d) = Some d.
Proof.
  intros Hd.
  assert (d = 0 ∨ d = 1 ∨ d = 2 ∨ d = 3 ∨ d = 4 ∨ d = 5 ∨ d = 6 ∨ d = 7 ∨ d = 8
          ∨ d = 9 ∨ d = 10 ∨ d = 11 ∨ d = 12 ∨ d = 13 ∨ d = 14 ∨ d = 15)
    as Hcases by lia.
  repeat (destruct Hcases as [->|Hcases]; [reflexivity|]). by subst.
Qed.

Lemma decode_hex4 (n : N) (rest : pystr) :
  n < 65536 → Json.decode_uXXXX (Json.hex4 n ++ rest) = Some (n, rest).
Proof.
  intros Hn. unfold Json.decode_uXXXX, Json.hex4. simpl.
  rewrite !hex_val_hex_digit by (apply N.mod_lt; lia).
  do 2 f_equal.
  change 4096 with (16 * (16 * 16)). change 256 with (16 * 16).
  rewrite <-!N.Div0.div_div.
  pose proof (N.div_mod n 16) as H0.
  pose proof (N.div_mod (n / 16) 16) as H1.
  pose proof (N.div_mod (n / 16 / 16) 16) as H2.
  pose proof (N.div_mod (n / 16 / 16 / 16) 16) as H3.
  assert (n / 16 / 16 / 16 / 16 = 0) as H4.
  { rewrite !N.Div0.div_div. apply N.div_small. lia. }
  lia.
Qed.

Lemma lor_shifted_low (a b : N) : b < 1024 → N.lor (a * 1024) b = a * 1024 + b.
Proof.
  intros Hb.
  assert (N.land (a * 2 ^ 10) b = 0) as Hland.
  { apply N.bits_inj. intros m. rewrite N.land_spec, N.bits_0.
    destruct (N.lt_ge_cases m 10) as [Hm|Hm].
    - by rewrite N.mul_pow2_bits_low.
    - destruct (decide (b = 0)) as [->|Hb0]; [by rewrite N.bits_0, andb_false_r|].
      rewrite (N.bits_above_log2 b m), andb_false_r; [done|].
      eapply N.lt_le_trans; [|exact Hm]. apply N.log2_lt_pow2; lia. }
  change 1024 with (2 ^ 10).
  by rewrite (N.add_nocarry_lxor _ _ Hland), (N.lxor_lor _ _ Hland).
Qed.

Lemma surrogate_pair (n : N) :
  n < 0x100000 →
  N.lor 0xd800 (N.land (N.shiftr n 10) 0x3ff) = 0xd800 + n / 1024
  ∧ N.lor 0xdc00 (N.land n 0x3ff) = 0xdc00 + n mod 1024
  ∧ N.lor (N.shiftl (n / 1024) 10) (n mod 1024) = n.
Proof.
  intros Hn.
  assert (n / 1024 < 1024) as Hhi by (apply N.Div0.div_lt_upper_bound; lia).
  assert (n mod 1024 < 1024) as Hlo by (apply N.mod_lt; lia).
  change 0x3ff with (N.ones 10).
  rewrite !N.land_ones, N.shiftr_div_pow2, N.shiftl_mul_pow2.
  change (2 ^ 10) with 1024. rewrite (N.mod_small (n / 1024)) by done.
  change 0xd800 with (54 * 1024). change 0xdc00 with (55 * 1024).
  rewrite !lor_shifted_low by done.
  split; [done|]. split; [done|].
  pose proof (N.div_mod n 1024). lia.
Qed.

Lemma is_scalar_value_cases (c : N) :
  is_scalar_value c = true →
  c < 0x110000 ∧ Json.is_high_surrogate c = false ∧ Json.is_low_surrogate c = false.
Proof.
  unfold is_scalar_value, Json.is_high_surrogate, Json.is_low_surrogate.
  intros [?%N.ltb_lt|[?%N.ltb_lt ?%N.ltb_lt]%andb_true_iff]%orb_true_iff;
    (split; [lia|]); split; apply andb_false_iff;
    rewrite !N.leb_gt; lia.
Qed.

(** One character of an encoded string read back. *)
Lemma scanstring_from_escape_char (fuel : nat) (c : N) (s : pystr) :
  is_scalar_value c = true →
  Json.scanstring_from (S fuel) (Json.escape_char c ++ s)
  = let! r := Json.scanstring_from fuel s in ok (c :: r.1, r.2).
Proof.
  intros (Hmax & Hhigh & Hlow)%is_scalar_value_cases.
  unfold Json.escape_char.
  destruct (c =? Json.quote) eqn:H1; [by apply N.eqb_eq in H1 as ->|].
  destruct (c =? Json.backslash) eqn:H2; [by apply N.eqb_eq in H2 as ->|].
  destruct (c =? 10) eqn:H3; [by apply N.eqb_eq in H3 as ->|].
  destruct (c =? 13) eqn:H4; [by apply N.eqb_eq in H4 as ->|].
  destruct (c =? 9) eqn:H5; [by apply N.eqb_eq in H5 as ->|].
  destruct (c =? 8) eqn:H6; [by apply N.eqb_eq in H6 as ->|].
  destruct (c =? 12) eqn:H7; [by apply N.eqb_eq in H7 as ->|].
  destruct ((32 <=? c) && (c <=? 126)) eqn:Hrange.
  - apply andb_true_iff in Hrange as [Hlo%N.leb_le Hhi%N.leb_le].
    cbn [app Json.scanstring_from]. rewrite H1, H2.
    by apply N.ltb_ge in Hlo as ->.
  - destruct (c <? 65536) eqn:Hbmp.
    + apply N.ltb_lt in Hbmp.
      change (Json.u_escape c ++ s)
        with (Json.backslash :: chr "u" :: (Json.hex4 c ++ s)).
      cbn [Json.scanstring_from].
      change (Json.backslash =? Json.quote) with false.
      change (Json.backslash =? Json.backslash) with true.
      change (chr "u" =? chr "u") with true. cbv iota.
      unfold Json.unicode_escape. by rewrite decode_hex4, Hhigh.
    + apply N.ltb_ge in Hbmp. cbv zeta.
      destruct (surrogate_pair (c - 65536) ltac:(lia)) as (Hhi & Hlo & Hjoin).
      rewrite Hhi, Hlo.
      assert (c - 65536 < 0x100000) as Hn by lia.
      assert ((c - 65536) / 1024 < 1024) as Hq
        by (apply N.Div0.div_lt_upper_bound; lia).
      assert ((c - 65536) mod 1024 < 1024) as Hr by (apply N.mod_lt; lia).
      rewrite <-app_assoc.
      change (Json.u_escape ?n ++ ?t)
        with (Json.backslash :: chr "u" :: (Json.hex4 n ++ t)).
      cbn [Json.scanstring_from].
      change (Json.backslash =? Json.quote) with false.
      change (Json.backslash =? Json.backslash) with true.
      change (chr "u" =? chr "u") with true. cbv iota.
      unfold Json.unicode_escape. rewrite decode_hex4
        by (clear - Hq; generalize dependent ((c - 65536) / 1024); intros; lia).
      assert (Json.is_high_surrogate (55296 + (c - 65536) / 1024) = true) as ->.
      { unfold Json.is_high_surrogate. apply andb_true_iff.
        rewrite !N.leb_le. clear - Hq.
        generalize dependent ((c - 65536) / 1024). intros; lia. }
      change (Json.u_escape ?n ++ ?t)
        with (Json.backslash :: chr "u" :: (Json.hex4 n ++ t)).
      change (Json.backslash =? Json.backslash) with true.
      change (chr "u" =? chr "u") with true. cbv iota. simpl andb. cbv iota.
      rewrite decode_hex4
        by (clear - Hr; generalize dependent ((c - 65536) mod 1024); intros; lia).
      assert (Json.is_low_surrogate (56320 + (c - 65536) mod 1024) = true) as ->.
      { unfold Json.is_low_surrogate. apply andb_true_iff.
        rewrite !N.leb_le. clear - Hr.
        generalize dependent ((c - 65536) mod 1024). intros; lia. }
      rewrite (N.add_comm 55296), (N.add_comm 56320), !N.add_sub.
      rewrite Hjoin.
      by replace (65536 + (c - 65536)) with c by (clear - Hbmp; lia).
Qed.

Lemma escape_char_nonempty (c : N) : (1 <= length (Json.escape_char c))%nat.
Proof.
  unfold Json.escape_char, Json.u_escape.
  repeat case_match; simpl; try rewrite length_app; simpl; lia.
Qed.

Lemma length_escaped (s : pystr) : (length s <= length (s ≫= Json.escape_char))%nat.
Proof.
  induction s as [|c s IH]; [done|].
  change ((c :: s) ≫= Json.escape_char)
    with (Json.escape_char c ++ (s ≫= Json.escape_char)).
  rewrite length_app. pose proof (escape_char_nonempty c). simpl. lia.
Qed.

Lemma scanstring_from_escaped (s : pystr) :
  ∀ (fuel : nat) (rest : pystr),
    Forall (λ c, is_scalar_value c = true) s →
    (length s < fuel)%nat →
    Json.scanstring_from fuel ((s ≫= Json.escape_char) ++ Json.quote :: rest)
    = ok (s, rest).
Proof.
  induction s as [|c s IH]; intros fuel rest Hs Hfuel.
  - destruct fuel; [simpl in Hfuel; lia|]. reflexivity.
  - destruct fuel as [|fuel]; [simpl in Hfuel; lia|].
    apply Forall_cons in Hs as [Hc Hs].
    change ((c :: s) ≫= Json.escape_char)
      with (Json.escape_char c ++ (s ≫= Json.escape_char)).
    rewrite <-app_assoc, scanstring_from_escape_char by done.
    rewrite IH; [done|done|]. simpl in Hfuel. lia.
Qed.

(** A string of scalar values written by the encoder is read back by the
    decoder. *)
Lemma scanstring_escaped (s rest : pystr) :
  Forall (λ c, is_scalar_value c = true) s →
  Json.scanstring ((s ≫= Json.escape_char) ++ Json.quote :: rest) = ok (s, rest).
Proof.
  intros Hs. unfold Json.scanstring. apply scanstring_from_escaped; [done|].
  rewrite length_app. pose proof (length_escaped s). simpl. lia.
Qed.

(** The last member of an encoded dict read back. *)
Lemma object_members_last (fuel : nat) (k v rest : pystr)
    (pairs : list (pystr * pyval)) :
  fuel ≠ 0%nat →
  Forall (λ c, is_scalar_value c = true) k →
  Forall (λ c, is_scalar_value c = true) v →
  Json.object_members (S fuel)
    ((k ≫= Json.escape_char) ++ Json.quote :: 58 :: 32 :: Json.quote
     :: (v ≫= Json.escape_char) ++ Json.quote :: rbrace :: rest) pairs
  = ok (PDict (dict_set pairs k (PStr v)), rest).
Proof.
  intros Hfuel Hk Hv.
  cbn [Json.object_members]. rewrite scanstring_escaped by done.
  cbn [bind ok fst snd].
  change (Json.skip_ws (58 :: ?t)) with (58 :: t). cbv iota.
  change (58 =? chr ":") with true. cbv iota.
  change (Json.skip_ws (32 :: Json.quote :: ?t)) with (Json.quote :: t).
  destruct fuel as [|fuel]; [done|]. cbn [Json.scan_once].
  change (Json.quote =? Json.quote) with true. cbv iota.
  rewrite scanstring_escaped by done. cbn [bind ok fst snd].
  reflexivity.
Qed.

(** A member of an encoded dict that another one follows. *)
Lemma object_members_next (fuel : nat) (k v rest : pystr)
    (pairs : list (pystr * pyval)) :
  fuel ≠ 0%nat →
  Forall (λ c, is_scalar_value c = true) k →
  Forall (λ c, is_scalar_value c = true) v →
  Json.object_members (S fuel)
    ((k ≫= Json.escape_char) ++ Json.quote :: 58 :: 32 :: Json.quote
     :: (v ≫= Json.escape_char) ++ Json.quote :: 44 :: 32 :: Json.quote :: rest)
    pairs
  = Json.object_members fuel rest (dict_set pairs k (PStr v)).
Proof.
  intros Hfuel Hk Hv.
  cbn [Json.object_members]. rewrite scanstring_escaped by done.
  cbn [bind ok fst snd].
  change (Json.skip_ws (58 :: ?t)) with (58 :: t). cbv iota.
  change (58 =? chr ":") with true. cbv iota.
  change (Json.skip_ws (32 :: Json.quote :: ?t)) with (Json.quote :: t).
  destruct fuel as [|fuel]; [done|]. cbn [Json.scan_once].
  change (Json.quote =? Json.quote) with true. cbv iota.
  rewrite scanstring_escaped by done. cbn [bind ok fst snd].
  reflexivity.
Qed.

Lemma dict_set_fresh {V} (acc : list (pystr * V)) (k : pystr) (v : V) :
  k ∉ acc.*1 → dict_set acc k v = acc ++ [(k, v)].
Proof.
  induction acc as [|[k' v'] acc IH]; [done|]. simpl.
  intros [Hk Hacc]%not_elem_of_cons. unfold pystr_eqb.
  rewrite bool_decide_eq_false_2 by done. by rewrite IH.
Qed.

Lemma dumps_item_shape (kv : pystr * pystr) :
  Json.dumps_item kv
  = Json.quote :: (kv.1 ≫= Json.escape_char) ++ Json.quote :: 58 :: 32 :: Json.quote
    :: (kv.2 ≫= Json.escape_char) ++ [Json.quote].
Proof.
  unfold Json.dumps_item, Json.encode_basestring_ascii.
  change (py ": ") with [58; 32]. simpl. by rewrite <-!app_assoc.
Qed.

Lemma join_dumps_items (kv : pystr * pystr) (d : list (pystr * pystr)) (rest : pystr) :
  join (py ", ") (Json.dumps_item <$> kv :: d) ++ rest
  = Json.quote :: (kv.1 ≫= Json.escape_char) ++ Json.quote :: 58 :: 32 :: Json.quote
    :: (kv.2 ≫= Json.escape_char) ++ Json.quote
    :: match d with
       | [] => rest
       | kv' :: d' => 44 :: 32 :: join (py ", ") (Json.dumps_item <$> kv' :: d') ++ rest
       end.
Proof.
  destruct d as [|kv' d'].
  - change (join (py ", ") (Json.dumps_item <$> [kv])) with (Json.dumps_item kv).
    rewrite dumps_item_shape. by repeat (rewrite <-?app_assoc; simpl).
  - change (join (py ", ") (Json.dumps_item <$> kv :: kv' :: d'))
      with (Json.dumps_item kv ++ [44; 32]
            ++ join (py ", ") (Json.dumps_item <$> kv' :: d')).
    rewrite dumps_item_shape. by repeat (rewrite <-?app_assoc; simpl).
Qed.

Lemma object_members_encoded (d : list (pystr * pystr)) :
  ∀ (kv : pystr * pystr) (fuel : nat) (pairs : list (pystr * pyval)) (rest : pystr),
    (length (kv :: d) < fuel)%nat →
    Forall (λ e, Forall (λ c, is_scalar_value c = true) e.1
                 ∧ Forall (λ c, is_scalar_value c = true) e.2) (kv :: d) →
    Json.object_members fuel
      (tail (join (py ", ") (Json.dumps_item <$> kv :: d) ++ rbrace :: rest)) pairs
    = ok (PDict (foldl (λ acc e, dict_set acc e.1 (PStr e.2)) pairs (kv :: d)), rest).
Proof.
  induction d as [|kv' d IH]; intros kv fuel pairs rest Hfuel Hvalid;
    apply Forall_cons in Hvalid as [[Hk Hv] Hvalid];
    rewrite join_dumps_items; cbn [tail];
    (destruct fuel as [|fuel]; [simpl in Hfuel; lia|]).
  - rewrite object_members_last; [done| |done|done]. simpl in Hfuel. lia.
  - rewrite (join_dumps_items kv' d).
    rewrite object_members_next; [| |done|done]; [|simpl in Hfuel; lia].
    etrans; [|apply (IH kv' fuel _ rest); [simpl in *; lia|done]].
    by rewrite (join_dumps_items kv' d).
Qed.

Lemma foldl_dict_set_fresh (d : list (pystr * pystr)) :
  ∀ pairs : list (pystr * pyval),
    NoDup (pairs.*1 ++ d.*1) →
    foldl (λ acc e, dict_set acc e.1 (PStr e.2)) pairs d
    = pairs ++ ((λ e, (e.1, PStr e.2)) <$> d).
Proof.
  induction d as [|[k v] d IH]; intros pairs Hnodup; simpl.
  - by rewrite app_nil_r.
  - assert (k ∉ pairs.*1) as Hfresh.
    { apply NoDup_app in Hnodup as (_ & Hdisj & _).
      intros Hin. apply (Hdisj _ Hin). by left. }
    rewrite dict_set_fresh by done. rewrite IH; [by rewrite <-app_assoc|].
    rewrite fmap_app, <-app_assoc. exact Hnodup.
Qed.

Lemma length_join_dumps_items (d : list (pystr * pystr)) :
  (length d <= length (join (py ", ") (Json.dumps_item <$> d)))%nat.
Proof.
  induction d as [|kv d IH]; [done|].
  pose proof (join_dumps_items kv d []) as Hshape. rewrite app_nil_r in Hshape.
  rewrite Hshape. destruct d as [|kv' d'].
  - simpl. lia.
  - rewrite app_nil_r. simpl in *. rewrite !length_app. simpl.
    rewrite !length_app. simpl. lia.
Qed.

(** X5. Round trip: a dict of strings written by [json.dumps] is read
    back by [json.loads] as the same dict, when its keys are distinct and
    its strings hold Unicode scalar values only (no surrogate code
    point). *)
Theorem loads_dumps_round_trip (d : list (pystr * pystr)) :
  NoDup d.*1 →
  Forall (λ e, Forall (λ c, is_scalar_value c = true) e.1
               ∧ Forall (λ c, is_scalar_value c = true) e.2) d →
  Json.loads (Json.dumps d) = ok (PDict ((λ e, (e.1, PStr e.2)) <$> d)).
Proof.
  intros Hnodup Hvalid. unfold Json.dumps, Json.loads.
  change (py "{" ++ ?t) with (lbrace :: t). change (py "}") with [rbrace].
  change (Json.skip_ws (lbrace :: ?t)) with (lbrace :: t). cbv zeta.
  cbn [Json.scan_once].
  change (lbrace =? Json.quote) with false. change (lbrace =? lbrace) with true.
  cbv iota.
  destruct d as [|kv d]; [reflexivity|].
  rewrite join_dumps_items.
  change (Json.skip_ws (Json.quote :: ?t)) with (Json.quote :: t). cbv iota.
  change (Json.quote =? rbrace) with false. change (Json.quote =? Json.quote) with true.
  cbv iota.
  pose proof (object_members_encoded d kv
                (length (lbrace :: join (py ", ") (Json.dumps_item <$> kv :: d)
                                   ++ [rbrace]))
                [] []) as Hmembers.
  rewrite join_dumps_items in Hmembers. cbn [tail] in Hmembers.
  rewrite Hmembers; [| |done].
  - cbn [bind ok fst snd Json.skip_ws].
    by rewrite foldl_dict_set_fresh.
  - rewrite <-join_dumps_items.
    pose proof (length_join_dumps_items (kv :: d)) as Hlen.
    cbn [length]. rewrite length_app. simpl in *. lia.
Qed.

Lemma loads_dumps_round_trip_witness :
  Json.loads (Json.dumps rubric) = ok (PDict ((λ e, (e.1, PStr e.2)) <$> rubric)).
Proof.
  apply (loads_dumps_round_trip rubric); [compute_done|].
  repeat constructor; compute_done.
Defined.

(** ** [safe_text] *)

Lemma safe_text_fmap `{Runtime} (text : pyval) :
  safe_text text = safe_char <$> py_str text.
Proof.
  unfold safe_text, replace_char. rewrite <-!list_fmap_compose.
  apply list_fmap_ext. intros i c _. unfold safe_char. simpl.
  destruct (c =? 0x2013) eqn:H1; [reflexivity|].
  destruct (c =? 0x201c) eqn:H2; [reflexivity|].
  destruct (c =? 0x201d) eqn:H3; reflexivity.
Qed.

Lemma safe_char_clean (c : N) :
  safe_char c ≠ 0x2013 ∧ safe_char c ≠ 0x201c ∧ safe_char c ≠ 0x201d.
Proof.
  unfold safe_char.
  destruct (c =? 0x2013) eqn:H1; [by vm_compute|].
  destruct (c =? 0x201c) eqn:H2; [by vm_compute|].
  destruct (c =? 0x201d) eqn:H3; [by vm_compute|].
  by apply N.eqb_neq in H1, H2, H3.
Qed.

(** X6. [safe_text] keeps the length of the text and changes it
    character by character: an en dash becomes a hyphen, a curly double
    quote the straight one, anything else stays; so none of the three
    is left, and a second pass changes nothing. *)
Theorem safe_text_replaces_in_place `{Runtime} (text : pyval) :
  length (safe_text text) = length (py_str text)
  ∧ (∀ i : nat,
       safe_text text !! i
       = (λ c, if c =? 0x2013 then chr "-"
               else if (c =? 0x201c) || (c =? 0x201d) then Json.quote
               else c) <$> (py_str text !! i))
  ∧ Forall (λ c, c ≠ 0x2013 ∧ c ≠ 0x201c ∧ c ≠ 0x201d) (safe_text text)
  ∧ safe_text (PStr (safe_text text)) = safe_text text.
Proof.
  split; [by rewrite safe_text_fmap, length_fmap|]. split.
  { intros i. by rewrite safe_text_fmap, list_lookup_fmap. }
  split.
  { rewrite safe_text_fmap. apply Forall_fmap, Forall_true. intros c.
    apply safe_char_clean. }
  rewrite (safe_text_fmap (PStr _)). simpl. rewrite safe_text_fmap, <-list_fmap_compose.
  apply list_fmap_ext. intros i c _. simpl.
  destruct (safe_char_clean c) as (N1 & N2 & N3).
  apply N.eqb_neq in N1, N2, N3. unfold safe_char at 1. by rewrite N1, N2, N3.
Qed.

(** ** The reasoning paragraph *)

Lemma splitlines_from_no_linebreak (n : nat) :
  ∀ (s line : pystr),
    (length s ≤ n)%nat →
    Forall (λ c, is_linebreak c = false) line →
    Forall (Forall (λ c, is_linebreak c = false)) (splitlines_from line s).
Proof.
  induction n as [|n IH]; intros s line Hlen Hline.
  - destruct s; [|simpl in Hlen; lia]. simpl. destruct line; repeat constructor.
    all: by inversion Hline.
  - destruct s as [|c rest]; simpl.
    { destruct line; repeat constructor; by inversion Hline. }
    simpl in Hlen. destruct (is_linebreak c) eqn:Hc.
    + constructor; [done|]. apply IH; [|constructor].
      destruct (c =? 13); [|lia]. destruct rest as [|d rest']; [simpl; lia|].
      destruct (d =? 10); simpl in *; lia.
    + apply IH; [lia|]. apply Forall_app. split; [done|]. by repeat constructor.
Qed.

Lemma join_space_no_linebreak (lines : list pystr) :
  Forall (Forall (λ c, is_linebreak c = false)) lines →
  Forall (λ c, is_linebreak c = false) (join (py " ") lines).
Proof.
  induction 1 as [|l lines Hl Hlines IH]; [constructor|].
  destruct lines as [|l' lines]; [done|].
  change (Forall (λ c, is_linebreak c = false) (l ++ [32] ++ join (py " ") (l' :: lines))).
  rewrite !Forall_app. split_and!; [done| |done]. by repeat constructor.
Qed.

Lemma splitlines_from_one_line (s line : pystr) :
  Forall (λ c, is_linebreak c = false) s →
  join (py " ") (splitlines_from line s) = line ++ s.
Proof.
  revert line. induction s as [|c s IH]; intros line Hs; simpl.
  - rewrite app_nil_r. by destruct line.
  - inversion Hs as [|? ? Hc Hs']; subst. rewrite Hc, IH by done.
    by rewrite <-app_assoc.
Qed.

Lemma length_join_cons (sep l : pystr) (ls : list pystr) :
  (length (join sep (l :: ls)) ≤ length l + length sep + length (join sep ls))%nat.
Proof. destruct ls; simpl; rewrite ?length_app; simpl; rewrite ?length_app; lia. Qed.

Lemma splitlines_from_length (n : nat) :
  ∀ (s line : pystr),
    (length s ≤ n)%nat →
    (length (join (py " ") (splitlines_from line s)) ≤ length line + length s)%nat.
Proof.
  induction n as [|n IH]; intros s line Hlen.
  - destruct s; [|simpl in Hlen; lia]. simpl. destruct line; simpl; lia.
  - destruct s as [|c rest]; [simpl; destruct line; simpl; lia|].
    simpl in Hlen. cbn [splitlines_from]. destruct (is_linebreak c).
    + etrans; [apply length_join_cons|].
      change (length (py " ")) with 1%nat. cbn [length].
      assert (length (if (c =? 13)%N
                      then match rest with
                           | [] => rest
                           | d :: rest' => if (d =? 10)%N then rest' else rest
                           end
                      else rest) ≤ length rest)%nat as Hle.
      { destruct (c =? 13); [|lia]. destruct rest as [|d rest']; [simpl; lia|].
        destruct (d =? 10); simpl; lia. }
      specialize (IH _ [] (Nat.le_trans _ _ _ Hle (le_S_n _ _ Hlen))).
      simpl in IH. lia.
    + etrans; [apply IH; lia|]. rewrite length_app. simpl. lia.
Qed.

(** X7. The reasoning paragraph of a section holds no line break: when
    [draw_reasoning] completes the reasoning is a [str], the one text it
    draws has none of the line boundaries of [str.splitlines], and it is
    the reasoning itself when that has none. *)
Theorem reasoning_drawn_without_line_breaks (fs : gmap pystr file)
    (body_font : option pystr) (reasoning : pyval) (made : nat)
    (calls : list pdf_call) :
  draw_reasoning fs body_font reasoning made = ok (tt, calls) →
  ∃ s paragraph,
    reasoning = PStr s
    ∧ (∀ c0, drawn_texts c0 calls = [((28, 28, 28)%Z, PStr paragraph)])
    ∧ Forall (λ c, is_linebreak c = false) paragraph
    ∧ (length paragraph ≤ length s)%nat
    ∧ (Forall (λ c, is_linebreak c = false) s → paragraph = s).
Proof.
  rewrite draw_reasoning_run.
  destruct reasoning as [| | | |s| |]; try done. simpl.
  unfold ok. intros [= <-]. exists s, (join (py " ") (splitlines_from [] s)).
  split_and!; [done| |..].
  - intros c0. unfold body_font_call. by destruct (usable fs body_font).
  - apply join_space_no_linebreak, (splitlines_from_no_linebreak (length s)); done.
  - apply (splitlines_from_length (length s)). done.
  - intros Hs. by rewrite splitlines_from_one_line.
Qed.

Lemma reasoning_drawn_without_line_breaks_witness :
  ∃ calls s paragraph,
    draw_reasoning ∅ default_body_font
      (PStr [97; 13; 10; 98; 10]) 3%nat = ok (tt, calls)
    ∧ PStr [97; 13; 10; 98; 10] = PStr s
    ∧ (∀ c0, drawn_texts c0 calls = [((28, 28, 28)%Z, PStr paragraph)])
    ∧ Forall (λ c, is_linebreak c = false) paragraph
    ∧ (length paragraph ≤ length s)%nat
    ∧ (Forall (λ c, is_linebreak c = false) s → paragraph = s).
Proof.
  destruct (draw_reasoning ∅ default_body_font
              (PStr [97; 13; 10; 98; 10]) 3%nat) as [e|[[] calls]] eqn:Hrun;
    [vm_compute in Hrun; discriminate|].
  destruct (reasoning_drawn_without_line_breaks _ _ _ _ _ Hrun)
    as (s & paragraph & Hs).
  by exists calls, s, paragraph.
Defined.

(** ** What a section raises *)

Section Outcome.
Context `{Runtime}.
Variable fs : gmap pystr file.
Variables heading_font body_font : option pystr.
Variable icon_paths : list (pystr * pystr).

(** The three steps of a section that can raise, in the order the loop
    body takes them. *)
Lemma draw_section_outcome (item : pystr * pyval) (made : nat) :
  (∃ e, draw_section fs heading_font body_font icon_paths item made = raise e
        ∧ (grade_color (section_fields item.2).1.1 = raise e
           ∨ (∃ color, grade_color (section_fields item.2).1.1 = ok color)
             ∧ (splitlines (section_fields item.2).1.2 = raise e
                ∨ (∃ lines, splitlines (section_fields item.2).1.2 = ok lines)
                  ∧ truthy (section_fields item.2).2 = true
                  ∧ py_iter (section_fields item.2).2 = raise e)))
  ∨ (∃ calls, draw_section fs heading_font body_font icon_paths item made
              = ok (tt, calls)).
Proof.
  unfold draw_section.
  destruct (section_fields item.2) as [[grade reasoning] qw]. simpl.
  unfold render_bind. rewrite draw_heading_run.
  destruct (grade_color grade) as [e|color]; [left; exists e; by split; [|left]|].
  simpl. rewrite draw_reasoning_run.
  destruct (splitlines reasoning) as [e|lines].
  { left. exists e. split; [done|]. right. split; [by eexists|]. by left. }
  simpl. rewrite draw_quick_wins_run.
  destruct (truthy qw); [|right; by eexists].
  destruct (py_iter qw) as [e|qs]; [|right; by eexists].
  left. exists e. split; [done|]. right. split; [by eexists|]. right.
  split; [by eexists|]. done.
Qed.

End Outcome.

(** X8. What makes a section raise, in the order of the loop body: a
    grade that is a list or a dict is not hashable and the colour lookup
    raises [TypeError]; else a reasoning that is not a [str] has no
    [splitlines] and raises [AttributeError]; else quick wins that are
    true but not iterable raise [TypeError]. Nothing else raises. *)
Theorem draw_section_raises `{Runtime} (fs : gmap pystr file)
    (heading_font body_font : option pystr) (icon_paths : list (pystr * pystr))
    (item : pystr * pyval) (made : nat) (e : exn) :
  draw_section fs heading_font body_font icon_paths item made = raise e
  ↔ (e = TypeError
     ∧ ((∃ l, (section_fields item.2).1.1 = PList l)
        ∨ (∃ d, (section_fields item.2).1.1 = PDict d)))
    ∨ (e = AttributeError
       ∧ (∃ color, grade_color (section_fields item.2).1.1 = ok color)
       ∧ (∀ s, (section_fields item.2).1.2 ≠ PStr s))
    ∨ (e = TypeError
       ∧ (∃ color, grade_color (section_fields item.2).1.1 = ok color)
       ∧ (∃ s, (section_fields item.2).1.2 = PStr s)
       ∧ truthy (section_fields item.2).2 = true
       ∧ (∀ l, (section_fields item.2).2 ≠ PList l)
       ∧ (∀ s, (section_fields item.2).2 ≠ PStr s)
       ∧ (∀ d, (section_fields item.2).2 ≠ PDict d)).
Proof.
  destruct (draw_section_outcome fs heading_font body_font icon_paths item made)
    as [(e' & -> & Hwhy)|[calls Hrun]].
  - split.
    + unfold raise. intros [= ->].
      destruct Hwhy as [Hg|[Hcolor [Hr|(Hlines & Hqw & Hiter)]]].
      * left. destruct (section_fields item.2).1.1; try done;
          injection Hg as <-; split; eauto.
      * right; left.
        destruct (section_fields item.2).1.2; try done;
          injection Hr as <-; by split_and!.
      * right; right. destruct Hlines as [lines Hlines].
        destruct (section_fields item.2).1.2; try done.
        destruct (section_fields item.2).2; try done.
        all: injection Hiter as <-.
        all: split_and!; try done; eauto.
    + intros [(-> & Hg)|[(-> & [color Hcolor] & Hr)
                        |(-> & [color Hcolor] & [s Hs] & Hqw & Hl & Hs' & Hd)]].
      * destruct Hwhy as [Hg'|[[color Hcolor] _]].
        -- destruct Hg as [[l Hl]|[d Hd]]; rewrite ?Hl, ?Hd in Hg';
             by injection Hg' as <-.
        -- destruct Hg as [[l Hl]|[d Hd]]; by rewrite ?Hl, ?Hd in Hcolor.
      * destruct Hwhy as [Hg'|[_ [Hr'|([lines Hlines] & _)]]].
        -- by rewrite Hcolor in Hg'.
        -- destruct (section_fields item.2).1.2; try done; by injection Hr' as <-.
        -- destruct (section_fields item.2).1.2; try done. by edestruct Hr.
      * destruct Hwhy as [Hg'|[_ [Hr'|(_ & _ & Hiter)]]].
        -- by rewrite Hcolor in Hg'.
        -- by rewrite Hs in Hr'.
        -- destruct (section_fields item.2).2; try done; by injection Hiter as <-.
  - rewrite Hrun. split; [done|].
    assert (drawable item.2) as (Hcolor & Hstr & Hqw).
    { eapply draw_section_runs_iff. by eexists. }
    intros [(-> & Hg)|[(-> & _ & Hr)|(-> & _ & _ & Htruthy & Hl & Hs & Hd)]];
      exfalso.
    + destruct Hcolor as [color Hcolor].
      destruct Hg as [[l Hl]|[d Hd]]; by rewrite ?Hl, ?Hd in Hcolor.
    + destruct Hstr as [s Hs]. by eapply Hr.
    + destruct (Hqw Htruthy) as [qs Hqs].
      destruct (section_fields item.2).2; try done;
        solve [by eapply Hl | by eapply Hs | by eapply Hd].
Qed.

(** ** What [build_pdf] raises *)

Lemma grade_color_raise (grade : pyval) (e : exn) :
  grade_color grade = raise e → e = TypeError.
Proof. destruct grade; try done; by intros [= <-]. Qed.

Lemma splitlines_raise (v : pyval) (e : exn) :
  splitlines v = raise e → e = AttributeError.
Proof. destruct v; try done; by intros [= <-]. Qed.

Lemma py_iter_raise (v : pyval) (e : exn) : py_iter v = raise e → e = TypeError.
Proof. destruct v; try done; by intros [= <-]. Qed.

Lemma for_each_raise {A} (xs : list A) (body : A → render unit) (e : exn) :
  ∀ made, for_each xs body made = raise e →
          ∃ x made', x ∈ xs ∧ body x made' = raise e.
Proof.
  induction xs as [|x xs IH]; intros made; [done|].
  cbn [for_each]. unfold render_bind.
  destruct (body x made) as [e'|[u part]] eqn:Hbody; simpl.
  - intros [= ->]. exists x, made. split; [left|done].
  - destruct (for_each xs body _) as [e'|r] eqn:Hrest; simpl; [|done].
    intros [= ->]. destruct (IH _ Hrest) as (y & made' & Hy & Hraise).
    exists y, made'. split; [by right|done].
Qed.

Lemma draw_document_raise `{Runtime} (fs : gmap pystr file)
    (heading_font body_font : option pystr) (icon_paths : list (pystr * pystr))
    (audit : pyval) (header_image : option pystr) (made : nat) (e : exn) :
  draw_document fs heading_font body_font icon_paths audit header_image made
  = raise e →
  ((∀ entries, audit ≠ PDict entries) ∧ e = AttributeError)
  ∨ ∃ entries entry made',
      audit = PDict entries ∧ entry ∈ entries
      ∧ draw_section fs heading_font body_font icon_paths entry made' = raise e.
Proof.
  unfold draw_document, render_bind.
  destruct (draw_preamble_run fs heading_font body_font header_image made)
    as (pre & -> & _).
  simpl. destruct audit as [| | | | | |entries];
    try (intros [= <-]; left; by split).
  simpl.
  destruct (for_each entries _ _) as [e'|r] eqn:Hloop; simpl; [|done].
  intros [= ->]. right.
  apply for_each_raise in Hloop as (entry & made' & Hin & Hraise).
  by exists entries, entry, made'.
Qed.

(** X9. [build_pdf] on a report it cannot draw, the calls on the
    document taken to succeed: a report that is not a dict has no
    [items] and raises [AttributeError]; a report with a section that
    is not drawable raises; and whatever is raised is an
    [AttributeError] or a [TypeError]. *)
Theorem build_pdf_raises `{Runtime} (fs : gmap pystr file) (website_url : pystr)
    (header_image heading_font body_font : option pystr)
    (icon_paths : option (list (pystr * pystr))) :
  (∀ audit, (∀ entries, audit ≠ PDict entries) →
            build_pdf fs audit website_url header_image heading_font body_font
              icon_paths = raise AttributeError)
  ∧ (∀ entries, Exists (λ entry, ¬ drawable entry.2) entries →
                ∃ e, build_pdf fs (PDict entries) website_url header_image
                       heading_font body_font icon_paths = raise e)
  ∧ (∀ audit e, build_pdf fs audit website_url header_image heading_font
                  body_font icon_paths = raise e →
                e = AttributeError ∨ e = TypeError).
Proof.
  assert (∀ audit e, build_pdf fs audit website_url header_image heading_font
                       body_font icon_paths = raise e →
                     ((∀ entries, audit ≠ PDict entries) ∧ e = AttributeError)
                     ∨ ∃ entries entry made',
                         audit = PDict entries ∧ entry ∈ entries
                         ∧ draw_section fs heading_font body_font
                             (default default_icon_paths icon_paths) entry made'
                           = raise e) as Hraise.
  { intros audit e. unfold build_pdf. cbv zeta.
    destruct (draw_document _ _ _ _ _ _ _) as [e'|drawn] eqn:Hdoc; [|done].
    simpl. intros [= ->]. by eapply draw_document_raise. }
  split_and!.
  - intros audit Haudit.
    destruct (build_pdf fs audit _ _ _ _ _) as [e|[out_file files]] eqn:Hrun.
    + destruct (Hraise _ _ Hrun) as [[_ ->]|(entries & _ & _ & -> & _)]; [done|].
      by edestruct Haudit.
    + assert (∃ entries, audit = PDict entries
                         ∧ Forall (λ entry, drawable entry.2) entries)
        as (entries & -> & _) by (eapply build_pdf_completes_iff; eauto).
      by edestruct Haudit.
  - intros entries Hbad.
    destruct (build_pdf fs (PDict entries) _ _ _ _ _) as [e|[out_file files]] eqn:Hrun;
      [by exists e|].
    assert (∃ entries', PDict entries = PDict entries'
                        ∧ Forall (λ entry, drawable entry.2) entries')
      as (? & [= <-] & Hall) by (eapply build_pdf_completes_iff; eauto).
    apply Exists_exists in Hbad as (entry & Hin & Hno).
    rewrite Forall_forall in Hall. by destruct Hno; apply Hall.
  - intros audit e Hrun.
    destruct (Hraise _ _ Hrun) as [[_ ->]|(entries & entry & made' & -> & _ & Hsec)];
      [by left|].
    destruct (draw_section_outcome fs heading_font body_font
                (default default_icon_paths icon_paths) entry made')
      as [(e' & He' & Hwhy)|[calls Hok]]; [|by rewrite Hok in Hsec].
    rewrite He' in Hsec. injection Hsec as ->.
    destruct Hwhy as [Hg|[_ [Hr|(_ & _ & Hiter)]]].
    + right. by eapply grade_color_raise.
    + left. by eapply splitlines_raise.
    + right. by eapply py_iter_raise.
Qed.

Lemma build_pdf_raises_witness :
  build_pdf (H:=example_runtime) ∅ (PList []) (py "example.com")
    default_header_image default_heading_font default_body_font None
  = raise AttributeError
  ∧ build_pdf (H:=example_runtime) ∅
      (PDict [(py "Brand", PDict [(py "grade", PList [])])]) (py "example.com")
      default_header_image default_heading_font default_body_font None
    = raise TypeError.
Proof.
  destruct (build_pdf_raises (H:=example_runtime) ∅ (py "example.com")
              default_header_image default_heading_font default_body_font None)
    as (Hshape & Hsection & _).
  split; [by apply Hshape|].
  destruct (Hsection [(py "Brand", PDict [(py "grade", PList [])])]) as [e He].
  { apply Exists_cons_hd. intros ([color Hcolor] & _). discriminate Hcolor. }
  rewrite He. f_equal. vm_compute in He. by injection He as <-.
Defined.

(** ** The quick wins *)

(** X10. The [Quick Wins] block by the kind of value: a list gives the
    heading and one bullet per element, a [str] one bullet per
    character, a dict one per key, each the dash, a space and the
    stringified element, wrapped; an empty one, [None], [False] and
    zero give nothing; [True] and a number that is not zero are not
    iterable and raise [TypeError]. *)
Theorem quick_wins_block `{Runtime} (fs : gmap pystr file)
    (heading_font body_font : option pystr) (made : nat) :
  (∀ quick_wins qs,
     py_iter quick_wins = ok qs →
     ∃ calls,
       draw_quick_wins fs heading_font body_font quick_wins made = ok (tt, calls)
       ∧ ∀ c0, drawn_texts c0 calls
               = if qs is [] then []
                 else ((28, 28, 28)%Z, PStr (py "Quick Wins:"))
                      :: ((λ q, ((28, 28, 28)%Z,
                                 PStr (textwrap_fill (py "- " ++ py_str q) 110)))
                          <$> qs))
  ∧ (∀ items, py_iter (PList items) = ok items)
  ∧ (∀ s, py_iter (PStr s) = ok ((λ c, PStr [c]) <$> s))
  ∧ (∀ d, py_iter (PDict d) = ok ((λ kv, PStr kv.1) <$> d))
  ∧ (∀ quick_wins,
       (∀ qs, py_iter quick_wins ≠ ok qs) →
       draw_quick_wins fs heading_font body_font quick_wins made
       = if truthy quick_wins then raise TypeError else ok (tt, [])).
Proof.
  split_and!; try done.
  - intros quick_wins qs Hqs. rewrite draw_quick_wins_run, Hqs.
    assert (truthy quick_wins = negb (bool_decide (qs = []))) as ->.
    { destruct quick_wins as [| | | |s|items|d]; try done;
        injection Hqs as <-; simpl; [by destruct s|done|by destruct d]. }
    destruct qs as [|q qs]; [by exists []|].
    rewrite bool_decide_eq_false_2 by done. simpl. eexists. split; [done|].
    intros c0.
    trans (((28, 28, 28)%Z, PStr (py "Quick Wins:"))
           :: drawn_texts (28, 28, 28)%Z
                (((q :: qs) ≫= λ q, [set_x section_x;
                                     multi_cell text_width 6
                                       (textwrap_fill (py "- " ++ py_str q) 110)])
                 ++ [ln 6])).
    { unfold heading_font_call, body_font_call.
      by destruct (usable fs heading_font), (usable fs body_font). }
    rewrite drawn_texts_bullets. simpl. by rewrite app_nil_r.
  - intros quick_wins Hno. rewrite draw_quick_wins_run.
    destruct (truthy quick_wins); [|done].
    destruct quick_wins; try done; by edestruct Hno.
Qed.

Lemma quick_wins_block_witness :
  ∃ calls,
    draw_quick_wins (H:=example_runtime) ∅ default_heading_font default_body_font
      (PStr (py "SEO")) 0%nat = ok (tt, calls)
    ∧ drawn_texts black calls
      = [((28, 28, 28)%Z, PStr (py "Quick Wins:"));
         ((28, 28, 28)%Z, PStr (py "- S"));
         ((28, 28, 28)%Z, PStr (py "- E"));
         ((28, 28, 28)%Z, PStr (py "- O"))].
Proof.
  destruct (quick_wins_block (H:=example_runtime) ∅ default_heading_font
              default_body_font 0%nat) as (Hblock & _).
  destruct (Hblock (PStr (py "SEO")) _ eq_refl) as (calls & Hrun & Htexts).
  exists calls. split; [exact Hrun|]. by rewrite Htexts.
Defined.

(** ** Fonts *)

Section Fonts.
Context `{Runtime}.
Variable fs : gmap pystr file.
Variables heading_font body_font : option pystr.
Variable icon_paths : list (pystr * pystr).

(** The calls of the page set-up. *)
Lemma draw_preamble_calls (header_image : option pystr) (made : nat) :
  draw_preamble fs heading_font body_font header_image made
  = ok (tt,
        [add_page; set_auto_page_break true 15; set_fill_color 249 249 250;
         rect 0 0 210 297 (py "F")]
        ++ (if usable fs heading_font
            then [add_font (py "HeadingFont") [] (default [] heading_font)] else [])
        ++ (if usable fs body_font
            then [add_font (py "BodyFont") [] (default [] body_font)] else [])
        ++ (if usable fs header_image
            then [image (default [] header_image) 0 (y_mm 0) 210] else [])
        ++ [ln 40]).
Proof.
  unfold draw_preamble, render_bind, when, call, render_ret.
  by destruct (usable fs heading_font), (usable fs body_font),
    (usable fs header_image).
Qed.

Lemma heading_font_call_ok (size : Z) :
  font_selected_ok fs heading_font body_font (heading_font_call fs heading_font size).
Proof.
  intros family style size'. unfold heading_font_call.
  destruct (usable fs heading_font); intros [= <- _ _]; auto.
Qed.

Lemma body_font_call_ok (size : Z) :
  font_selected_ok fs heading_font body_font (body_font_call fs body_font size).
Proof.
  intros family style size'. unfold body_font_call.
  destruct (usable fs body_font); intros [= <- _ _]; auto.
Qed.

Ltac font_step :=
  match goal with
  | |- font_selected_ok _ _ _ (heading_font_call _ _ _) => apply heading_font_call_ok
  | |- font_selected_ok _ _ _ (body_font_call _ _ _) => apply body_font_call_ok
  | |- font_selected_ok _ _ _ _ => intros ? ? ? ?; discriminate
  | |- Forall _ [] => constructor
  | |- Forall _ (_ :: _) => apply Forall_cons; split
  | |- Forall _ (_ ++ _) => apply Forall_app; split
  | |- Forall _ (if ?b then _ else _) => destruct b
  end.

Lemma draw_section_fonts (item : pystr * pyval) (made : nat) (calls : list pdf_call) :
  draw_section fs heading_font body_font icon_paths item made = ok (tt, calls) →
  Forall (font_selected_ok fs heading_font body_font) calls.
Proof.
  unfold draw_section.
  destruct (section_fields item.2) as [[grade reasoning] qw]. simpl.
  unfold render_bind. rewrite draw_heading_run.
  destruct (grade_color grade) as [e|color]; [done|]. simpl.
  rewrite draw_reasoning_run.
  destruct (splitlines reasoning) as [e|lines]; [done|]. simpl.
  rewrite draw_quick_wins_run.
  destruct (truthy qw); [destruct (py_iter qw) as [e|qs]; [done|]|];
    simpl; unfold ok; intros [= <-].
  all: repeat font_step.
  induction qs as [|q qs IH]; [constructor|].
  change (Forall (font_selected_ok fs heading_font body_font)
            ([set_x section_x;
              multi_cell text_width 6 (textwrap_fill (py "- " ++ py_str q) 110)]
             ++ (qs ≫= λ q, [set_x section_x;
                             multi_cell text_width 6
                               (textwrap_fill (py "- " ++ py_str q) 110)]))).
  by repeat font_step.
Qed.

Lemma for_each_section_fonts (entries : list (pystr * pyval)) :
  ∀ made calls,
    for_each entries (draw_section fs heading_font body_font icon_paths) made
    = ok (tt, calls) →
    Forall (font_selected_ok fs heading_font body_font) calls.
Proof.
  induction entries as [|entry entries IH]; intros made calls.
  - unfold ok. by intros [= <-].
  - cbn [for_each]. intros ([] & part & calls' & Hpart & Hrest & ->)%render_bind_ok.
    apply Forall_app. split; [by eapply draw_section_fonts|by eapply IH].
Qed.

End Fonts.

(** X11. [build_pdf] selects no font it has not registered: every
    [set_font] of the document names Helvetica, or a family that an
    earlier [add_font] of the same document registered from a file that
    is there. *)
Theorem build_pdf_selects_registered_fonts `{Runtime} (fs : gmap pystr file)
    (audit : pyval) (website_url : pystr)
    (header_image heading_font body_font : option pystr)
    (icon_paths : option (list (pystr * pystr)))
    (out_file : pystr) (files : gmap pystr file) :
  build_pdf fs audit website_url header_image heading_font body_font icon_paths
  = ok (out_file, files) →
  ∃ calls,
    files !! out_file = Some (pdf_document calls)
    ∧ ∀ (i : nat) family style size,
        calls !! i = Some (set_font family style size) →
        family = py "Helvetica"
        ∨ ∃ (j : nat) fname,
            (j < i)%nat
            ∧ calls !! j = Some (add_font family [] fname)
            ∧ path_exists fs fname = true.
Proof.
  intros (calls & Hdoc & -> & ->)%build_pdf_inv.
  exists calls. split; [by rewrite lookup_insert_eq|].
  apply draw_document_inv in Hdoc as (entries & pre & sections & -> & Hpre & Hloop & ->).
  rewrite draw_preamble_calls in Hpre. injection Hpre as <-.
  apply for_each_section_fonts in Hloop.
  assert (∀ path, usable fs path = true →
                  path_exists fs (default [] path) = true) as Hthere.
  { intros [[|c p]|]; done. }
  intros i family style size Hi.
  match type of Hi with (?p ++ sections) !! _ = _ => set (pre := p) in * end.
  assert (4 < length pre)%nat as Hlen.
  { subst pre. simpl. rewrite !length_app. simpl. lia. }
  apply lookup_app_Some in Hi as [Hi|[Hge Hi]].
  { exfalso. subst pre.
    destruct (usable fs heading_font), (usable fs body_font),
      (usable fs header_image); simpl in Hi;
      do 8 (destruct i as [|i]; [done|]); done. }
  rewrite Forall_lookup in Hloop.
  destruct (Hloop _ _ Hi family style size eq_refl)
    as [->|[[-> Hh]|[-> Hb]]]; [by left|right..].
  - exists 4%nat, (default [] heading_font). split; [lia|]. split; [|by apply Hthere].
    rewrite lookup_app_l by done. subst pre. by rewrite Hh.
  - destruct (usable fs heading_font) eqn:Hh.
    + exists 5%nat, (default [] body_font). split.
      { subst pre. rewrite ?Hh, ?Hb in Hge. simpl in Hge.
        rewrite ?length_app in Hge. simpl in Hge. lia. }
      split; [|by apply Hthere].
      rewrite lookup_app_l; subst pre; rewrite ?Hh, ?Hb; [done|].
      simpl. rewrite ?length_app. simpl. lia.
    + exists 4%nat, (default [] body_font). split; [lia|]. split; [|by apply Hthere].
      rewrite lookup_app_l by done. subst pre. by rewrite ?Hh, ?Hb.
Qed.

Lemma build_pdf_selects_registered_fonts_witness :
  ∃ out_file files calls,
    build_pdf (H:=example_runtime) example_fonts example_object (py "example.com")
      default_header_image default_heading_font default_body_font None
    = ok (out_file, files)
    ∧ files !! out_file = Some (pdf_document calls)
    ∧ ∀ (i : nat) family style size,
        calls !! i = Some (set_font family style size) →
        family = py "Helvetica"
        ∨ ∃ (j : nat) fname,
            (j < i)%nat
            ∧ calls !! j = Some (add_font family [] fname)
            ∧ path_exists example_fonts fname = true.
Proof.
  destruct (build_pdf (H:=example_runtime) example_fonts example_object
              (py "example.com") default_header_image default_heading_font
              default_body_font None) as [e|[out_file files]] eqn:Hrun;
    [vm_compute in Hrun; discriminate|].
  destruct (build_pdf_selects_registered_fonts _ _ _ _ _ _ _ _ _ Hrun)
    as (calls & Hfile & Hfonts).
  by exists out_file, files, calls.
Defined.

(** ** The page *)

Lemma error_messages_app (a b : list st_call) :
  error_messages (a ++ b) = error_messages a ++ error_messages b.
Proof.
  induction a as [|c a IH]; [done|]. destruct c; simpl; by rewrite ?IH.
Qed.

Lemma subheaders_app (a b : list st_call) :
  subheaders (a ++ b) = subheaders a ++ subheaders b.
Proof.
  induction a as [|c a IH]; [done|]. destruct c; simpl; by rewrite ?IH.
Qed.

Lemma screen_bind_calls {A B} (m : screen A) (k : A → screen B) :
  (screen_bind m k).1 = m.1 ++ match m.2 with inl _ => [] | inr a => (k a).1 end.
Proof. unfold screen_bind. destruct m.2; simpl; by rewrite ?app_nil_r. Qed.

Lemma screen_bind_result {A B} (m : screen A) (k : A → screen B) :
  (screen_bind m k).2 = match m.2 with inl e => inl e | inr a => (k a).2 end.
Proof. unfold screen_bind. by destruct m.2. Qed.

Lemma show_each_writes {A} (text : A → pyval) (qs : list A) :
  show_each qs (λ q, show (st_write (text q))) = ((λ q, st_write (text q)) <$> qs, ok tt).
Proof.
  induction qs as [|q qs IH]; [done|]. cbn [show_each]. rewrite IH. done.
Qed.

Lemma screen_bind_show {B} (c : st_call) (k : unit → screen B) :
  screen_bind (show c) k = (c :: (k tt).1, (k tt).2).
Proof. done. Qed.

Lemma screen_bind_lift_ok {A B} (a : A) (k : A → screen B) :
  screen_bind (screen_lift (ok a)) k = k a.
Proof. unfold screen_bind, screen_lift. simpl. by destruct (k a). Qed.

Lemma screen_bind_pair_ok {A B} (calls : list st_call) (a : A) (k : A → screen B) :
  screen_bind (calls, inr a) k = (calls ++ (k a).1, (k a).2).
Proof. done. Qed.

Section Page.
Context `{Runtime}.

Lemma show_section_calls (item : pystr * pyval) :
  error_messages (show_section item).1 = []
  ∧ subheaders (show_section item).1 = [header_of item].
Proof.
  unfold show_section, header_of.
  destruct item.2 as [| | | | | |d]; try done.
  rewrite !screen_bind_calls, error_messages_app, subheaders_app. simpl.
  destruct (truthy _); [|done]. simpl.
  destruct (py_iter _) as [e|qs]; [done|]. simpl.
  rewrite show_each_writes. simpl.
  induction qs as [|q qs IH]; [done|]. simpl. apply IH.
Qed.

Lemma show_section_raise (item : pystr * pyval) (e : exn) :
  (show_section item).2 = raise e → e = TypeError ∧ ¬ drawable item.2.
Proof.
  unfold show_section.
  destruct item.2 as [| | | | | |d]; try done.
  rewrite !screen_bind_result. simpl.
  destruct (truthy (dict_get d (py "quick_wins") PNone)) eqn:Htruthy; [|done]. simpl.
  destruct (py_iter _) as [e'|qs] eqn:Hiter; simpl.
  - intros [= <-].
    assert (is_Some (dict_lookup d (py "quick_wins"))) as [qw Hqw].
    { unfold dict_get in Htruthy. destruct (dict_lookup d _); [by eexists|done]. }
    unfold dict_get in *. rewrite Hqw in *. simpl in *.
    split.
    + destruct qw; try done; by injection Hiter as <-.
    + intros (_ & _ & Hqs). simpl in Hqs. unfold dict_get in Hqs.
      rewrite Hqw in Hqs. simpl in Hqs. destruct (Hqs Htruthy) as [qs Hqs'].
      by rewrite Hqs' in Hiter.
  - by rewrite show_each_writes.
Qed.

Lemma show_each_sections (entries : list (pystr * pyval)) :
  error_messages (show_each entries show_section).1 = []
  ∧ ((show_each entries show_section).2 = ok tt →
     subheaders (show_each entries show_section).1 = header_of <$> entries)
  ∧ (Forall (λ entry, drawable entry.2) entries →
     (show_each entries show_section).2 = ok tt)
  ∧ (∀ e, (show_each entries show_section).2 = raise e → e = TypeError).
Proof.
  induction entries as [|entry entries (IHe & IHs & IHd & IHr)]; [done|].
  cbn [show_each]. rewrite screen_bind_calls, screen_bind_result.
  rewrite error_messages_app, subheaders_app.
  destruct (show_section_calls entry) as [-> ->].
  destruct (show_section entry).2 as [e|[]] eqn:Hentry.
  - split_and!; try done.
    + intros [Hd _]%Forall_cons. by apply show_section_raise in Hentry as [_ ?].
    + intros e' [= <-]. by apply show_section_raise in Hentry as [? _].
  - rewrite IHe. split_and!; try done.
    + intros Hok. by rewrite IHs.
    + intros [_ Hd]%Forall_cons. by apply IHd.
Qed.

Variable stripped_strings : pystr → result (list pystr).
Variable responses_create : request → result pystr.
Variable json_loads : pystr → result pyval.
Variable temp_dir : pystr.

(** The page after the report is there and holds an entry. *)
Lemma on_generate_report (fs : gmap pystr file) (website_url : pystr)
    (entry : pystr * pyval) (entries : list (pystr * pyval)) :
  website_url ≠ [] →
  generate_audit_report stripped_strings responses_create json_loads website_url
    (py "gpt-4o-mini") = ok (PDict (entry :: entries)) →
  on_generate stripped_strings responses_create json_loads temp_dir fs website_url
  = let shown := show_each (entry :: entries) show_section in
    let name := safe_site_name website_url ++ py "_audit.pdf" in
    let pdf_path := path_join temp_dir name in
    let out_file := py "audit_" ++ sanitize_filename pdf_path ++ py ".pdf" in
    ([st_spinner (py "Generating your audit report...");
      st_success ([0x2705] ++ py " Audit complete!")]
     ++ shown.1
     ++ match shown.2,
              draw_document fs (Some (py "Montserrat-ExtraBold.ttf"))
                (Some (py "Montserrat-Medium.ttf")) default_icon_paths
                (PDict (entry :: entries))
                (Some (py "Growth_Marketing_Audit_Header.png")) 0%nat with
        | inr _, inr drawn =>
            [st_download_button ([0x1f4c4] ++ py " Download Audit PDF")
               (pdf_document drawn.2) name (py "application/pdf")]
        | _, _ => []
        end,
     match shown.2 with
     | inl e => inl e
     | inr _ =>
         match draw_document fs (Some (py "Montserrat-ExtraBold.ttf"))
                 (Some (py "Montserrat-Medium.ttf")) default_icon_paths
                 (PDict (entry :: entries))
                 (Some (py "Growth_Marketing_Audit_Header.png")) 0%nat with
         | inl e => inl e
         | inr drawn => ok (<[out_file := pdf_document drawn.2]> fs)
         end
     end).
Proof.
  intros Hurl Hreport. unfold on_generate.
  rewrite bool_decide_eq_false_2 by done.
  rewrite screen_bind_show, Hreport, screen_bind_lift_ok.
  rewrite screen_bind_show. cbv zeta.
  destruct (show_each (entry :: entries) show_section) as [calls [e|[]]].
  { unfold screen_bind. cbn [fst snd]. by rewrite app_nil_r. }
  rewrite screen_bind_pair_ok. cbn [fst snd].
  unfold build_pdf. cbv zeta. simpl default.
  destruct (draw_document _ _ _ _ _ _ _) as [e|drawn].
  { unfold bind, screen_lift, screen_bind. cbn [fst snd]. by rewrite app_nil_r. }
  unfold bind. rewrite screen_bind_lift_ok. cbn [ok fst snd].
  rewrite lookup_insert_eq. by rewrite screen_bind_show.
Qed.

Lemma on_generate_errors (fs : gmap pystr file) (website_url : pystr) :
  error_messages
    (on_generate stripped_strings responses_create json_loads temp_dir fs
       website_url).1
  = if bool_decide (website_url = []) then
      [py "Please enter a website URL before generating the audit."]
    else
      match generate_audit_report stripped_strings responses_create json_loads
              website_url (py "gpt-4o-mini") with
      | inl _ => []
      | inr (PDict (_ :: _)) => []
      | inr _ =>
          [[0x26a0; 0xfe0f]
           ++ py " Audit report is invalid. Please check the backend function."]
      end.
Proof.
  case_bool_decide as Hurl.
  { unfold on_generate. by rewrite bool_decide_eq_true_2. }
  destruct (generate_audit_report _ _ _ _ _) as [e|report] eqn:Hreport.
  { unfold on_generate. rewrite bool_decide_eq_false_2 by done.
    by rewrite screen_bind_show, Hreport. }
  assert (∀ v, (∀ entry entries, v ≠ PDict (entry :: entries)) → report = v →
               error_messages
                 (on_generate stripped_strings responses_create json_loads temp_dir
                    fs website_url).1
               = [[0x26a0; 0xfe0f]
                  ++ py " Audit report is invalid. Please check the backend function."])
    as Hinvalid.
  { intros v Hv ->. unfold on_generate. rewrite bool_decide_eq_false_2 by done.
    rewrite screen_bind_show, Hreport, screen_bind_lift_ok.
    destruct v as [| | | | | |[|entry entries]]; try done. by edestruct Hv. }
  destruct report as [| | | | | |[|entry entries]];
    try (eapply Hinvalid; [|reflexivity]; done).
  rewrite (on_generate_report _ _ _ _ Hurl Hreport). cbv zeta.
  cbn [fst]. rewrite !error_messages_app.
  destruct (show_each_sections (entry :: entries)) as (-> & _).
  destruct (show_each (entry :: entries) show_section).2; [done|].
  by destruct (draw_document _ _ _ _ _ _ _).
Qed.

End Page.

(** With the deserializer of the standard library the report is a dict. *)
Lemma generate_audit_report_loads_dict
    (stripped_strings : pystr → result (list pystr))
    (responses_create : request → result pystr)
    (website_url model : pystr) (report : pyval) :
  generate_audit_report stripped_strings responses_create Json.loads website_url model
  = ok report →
  ∃ entries, report = PDict entries.
Proof.
  unfold generate_audit_report, scrape_website, analyze. cbv zeta.
  destruct (stripped_strings website_url) as [e|texts]; [done|]. simpl.
  destruct (responses_create _) as [e|raw]; [done|]. simpl.
  destruct (parse_reply_loads_dict raw) as [entries ->].
  intros [= <-]. by eexists.
Qed.

(** X12. The error messages of the page: the request for a URL when the
    input is empty; the invalid-report message when the report is not a
    dict with an entry; none otherwise, also when an exception ends the
    run. The failure message of the PDF is never shown: the name
    [build_pdf] returns is the name of the file it has just written.
    With the deserializer of the standard library the report is a dict,
    and the page calls it invalid only when it is the empty object. *)
Theorem on_generate_error_messages `{Runtime}
    (stripped_strings : pystr → result (list pystr))
    (responses_create : request → result pystr) (temp_dir : pystr)
    (fs : gmap pystr file) (website_url : pystr) :
  (∀ json_loads,
     error_messages
       (on_generate stripped_strings responses_create json_loads temp_dir fs
          website_url).1
     = if bool_decide (website_url = []) then
         [py "Please enter a website URL before generating the audit."]
       else
         match generate_audit_report stripped_strings responses_create json_loads
                 website_url (py "gpt-4o-mini") with
         | inl _ => []
         | inr (PDict (_ :: _)) => []
         | inr _ =>
             [[0x26a0; 0xfe0f]
              ++ py " Audit report is invalid. Please check the backend function."]
         end)
  ∧ (website_url ≠ [] →
     ([0x26a0; 0xfe0f]
      ++ py " Audit report is invalid. Please check the backend function."
      ∈ error_messages
          (on_generate stripped_strings responses_create Json.loads temp_dir fs
             website_url).1)
     ↔ generate_audit_report stripped_strings responses_create Json.loads
         website_url (py "gpt-4o-mini") = ok (PDict [])).
Proof.
  split; [intros json_loads; apply on_generate_errors|].
  intros Hurl. rewrite on_generate_errors, bool_decide_eq_false_2 by done.
  destruct (generate_audit_report _ _ _ _ _) as [e|report] eqn:Hreport.
  { split; [by intros ?%elem_of_nil|done]. }
  destruct (generate_audit_report_loads_dict _ _ _ _ _ Hreport) as [entries ->].
  destruct entries as [|entry entries].
  - split; [done|]. intros _. by left.
  - split; [by intros ?%elem_of_nil|done].
Qed.

(** X13. A report the renderer can draw is shown in full: after the
    spinner and the success message the page shows the sections, one
    subheader per entry of the report in its order, and ends with the
    download button, whose data is the document [build_pdf] wrote; the
    titles of that document follow the same entries. *)
Theorem on_generate_shows_report `{Runtime}
    (stripped_strings : pystr → result (list pystr))
    (responses_create : request → result pystr)
    (json_loads : pystr → result pyval) (temp_dir : pystr)
    (fs : gmap pystr file) (website_url : pystr)
    (entries : list (pystr * pyval)) :
  website_url ≠ [] →
  generate_audit_report stripped_strings responses_create json_loads website_url
    (py "gpt-4o-mini") = ok (PDict entries) →
  entries ≠ [] →
  Forall (λ entry, drawable entry.2) entries →
  ∃ shown doc out_file,
    on_generate stripped_strings responses_create json_loads temp_dir fs website_url
    = ([st_spinner (py "Generating your audit report...");
        st_success ([0x2705] ++ py " Audit complete!")]
       ++ shown
       ++ [st_download_button ([0x1f4c4] ++ py " Download Audit PDF")
             (pdf_document doc) (safe_site_name website_url ++ py "_audit.pdf")
             (py "application/pdf")],
       ok (<[out_file := pdf_document doc]> fs))
    ∧ subheaders shown = header_of <$> entries
    ∧ error_messages shown = []
    ∧ section_titles doc = (λ entry, PStr (entry.1 ++ py " - ")) <$> entries.
Proof.
  intros Hurl Hreport Hentries Hdrawable.
  destruct entries as [|entry entries]; [done|].
  rewrite (on_generate_report _ _ _ _ _ _ _ _ Hurl Hreport). cbv zeta.
  destruct (show_each_sections (entry :: entries)) as (Herr & Hsub & Hok & _).
  specialize (Hok Hdrawable). specialize (Hsub Hok). rewrite Hok.
  destruct (proj2 (build_pdf_completes_iff fs (PDict (entry :: entries)) []
                     (Some (py "Growth_Marketing_Audit_Header.png"))
                     (Some (py "Montserrat-ExtraBold.ttf"))
                     (Some (py "Montserrat-Medium.ttf")) None))
    as (out & files & Hbuilt); [by eexists|].
  apply build_pdf_inv in Hbuilt as (calls & Hdoc & _ & _). simpl in Hdoc.
  rewrite Hdoc. cbn [snd].
  exists (show_each (entry :: entries) show_section).1, calls. eexists.
  split; [reflexivity|]. split; [done|]. split; [done|].
  apply draw_document_inv in Hdoc as (entries' & pre & sections & [= <-] & Hpre & Hloop & ->).
  destruct (draw_preamble_run fs (Some (py "Montserrat-ExtraBold.ttf"))
              (Some (py "Montserrat-Medium.ttf"))
              (Some (py "Growth_Marketing_Audit_Header.png")) 0)
    as (pre' & Hpre' & Htitles & _).
  rewrite Hpre' in Hpre. injection Hpre as <-.
  rewrite <-app_comm_cons, Htitles.
  by apply for_each_section_shows in Hloop as (-> & _).
Qed.

Lemma on_generate_shows_report_witness :
  ∃ shown doc out_file,
    on_generate (H:=example_runtime) example_page
      (stub_client (lbrace :: example_object_body ++ [rbrace])) Json.loads
      (py "/tmp") ∅ (py "https://example.com/pricing")
    = ([st_spinner (py "Generating your audit report...");
        st_success ([0x2705] ++ py " Audit complete!")]
       ++ shown
       ++ [st_download_button ([0x1f4c4] ++ py " Download Audit PDF")
             (pdf_document doc) (py "example_com_audit.pdf")
             (py "application/pdf")],
       ok (<[out_file := pdf_document doc]> ∅))
    ∧ subheaders shown = [py "Brand " ++ [en_dash] ++ py " Grade: A"]
    ∧ error_messages shown = []
    ∧ section_titles doc = [PStr (py "Brand - ")].
Proof.
  apply (on_generate_shows_report (H:=example_runtime) example_page
           (stub_client (lbrace :: example_object_body ++ [rbrace])) Json.loads
           (py "/tmp") ∅ (py "https://example.com/pricing")
           [(py "Brand",
             PDict [(py "grade", PStr (py "A"));
                    (py "reasoning", PStr (py "Clear."));
                    (py "quick_wins", PList [PStr (py "Add a tagline")])])]).
  - done.
  - by vm_compute.
  - done.
  - repeat constructor; simpl; eauto.
Defined.

(** X14. The page never writes the path it computes in the temporary
    directory: a run that ends normally leaves the files as they were,
    or adds the one document, under the name [build_pdf] makes of that
    path, which is not the path. *)
Theorem on_generate_spares_temp_path `{Runtime}
    (stripped_strings : pystr → result (list pystr))
    (responses_create : request → result pystr)
    (json_loads : pystr → result pyval) (temp_dir : pystr)
    (fs files : gmap pystr file) (website_url : pystr) :
  (on_generate stripped_strings responses_create json_loads temp_dir fs
     website_url).2 = ok files →
  files !! path_join temp_dir (safe_site_name website_url ++ py "_audit.pdf")
  = fs !! path_join temp_dir (safe_site_name website_url ++ py "_audit.pdf")
  ∧ (files = fs
     ∨ ∃ doc,
         files
         = <[py "audit_"
             ++ sanitize_filename
                  (path_join temp_dir (safe_site_name website_url ++ py "_audit.pdf"))
             ++ py ".pdf" := pdf_document doc]> fs).
Proof.
  destruct (decide (website_url = [])) as [->|Hurl].
  { intros [= <-]. split; [done|by left]. }
  destruct (generate_audit_report stripped_strings responses_create json_loads
              website_url (py "gpt-4o-mini")) as [e|report] eqn:Hreport.
  { unfold on_generate. rewrite bool_decide_eq_false_2 by done.
    by rewrite screen_bind_show, Hreport. }
  assert ((∀ entry entries, report ≠ PDict (entry :: entries)) →
          (on_generate stripped_strings responses_create json_loads temp_dir
             fs website_url).2 = ok fs) as Hinvalid.
  { intros Hv. unfold on_generate. rewrite bool_decide_eq_false_2 by done.
    rewrite screen_bind_show, Hreport, screen_bind_lift_ok.
    destruct report as [| | | | | |[|entry entries]]; try done. by edestruct Hv. }
  destruct report as [| | | | | |[|entry entries]];
    try (rewrite Hinvalid by done; intros [= <-]; split; [done|by left]).
  rewrite (on_generate_report _ _ _ _ _ _ _ _ Hurl Hreport). cbv zeta. cbn [snd].
  destruct (show_each _ _).2; [done|].
  destruct (draw_document _ _ _ _ _ _ _) as [e|drawn]; [done|].
  intros [= <-]. split; [|right; by eexists].
  apply lookup_insert_ne. intros Heq. apply (f_equal length) in Heq.
  revert Heq. cbn [length]. rewrite length_app. unfold sanitize_filename.
  rewrite length_fmap. simpl. lia.
Qed.

Lemma on_generate_spares_temp_path_witness :
  ∃ files,
    (on_generate (H:=example_runtime) example_page
       (stub_client (py "No JSON here.")) Json.loads (py "/tmp") ∅
       (py "https://example.com/pricing")).2 = ok files
    ∧ files !! py "/tmp/example_com_audit.pdf" = None
    ∧ ∃ doc, files = <[py "audit__tmp_example_com_audit.pdf.pdf" := pdf_document doc]> ∅.
Proof.
  destruct (on_generate (H:=example_runtime) example_page
              (stub_client (py "No JSON here.")) Json.loads (py "/tmp") ∅
              (py "https://example.com/pricing")) as [calls [e|files]] eqn:Hrun;
    [vm_compute in Hrun; discriminate|].
  exists files. split; [done|].
  destruct (on_generate_spares_temp_path (H:=example_runtime) example_page
              (stub_client (py "No JSON here.")) Json.loads (py "/tmp") ∅ files
              (py "https://example.com/pricing")) as [Hpath Hfiles].
  { by rewrite Hrun. }
  split; [exact Hpath|].
  destruct Hfiles as [->|[doc ->]]; [|by exists doc].
  vm_compute in Hrun. discriminate.
Defined.

(** ** The report and the command line *)


(** X16. [main] never builds a PDF: when the report is there it prints
    its one line and the call of [build_pdf] raises [TypeError], because
    [logo_path] is no parameter of [build_pdf]; no file is written,
    whatever the arguments. An exception of [generate_audit_report]
    comes first, with nothing printed. *)
Theorem main_never_builds_pdf `{Runtime}
    (stripped_strings : pystr → result (list pystr))
    (responses_create : request → result pystr)
    (json_loads : pystr → result pyval)
    (fs : gmap pystr file) (args : cli_args) :
  main stripped_strings responses_create json_loads fs args
  = match generate_audit_report stripped_strings responses_create json_loads
            (arg_url args) (arg_model args) with
    | inl e => ([], raise e)
    | inr _ => ([py "Generating PDF..."], raise TypeError)
    end.
Proof.
  unfold main. destruct (generate_audit_report _ _ _ _ _) as [e|audit]; [done|].
  f_equal.
Qed.

(** ** The site name *)

Lemma split_from_skip_char (sep : pystr) (c : N) (cur pre rest : pystr) :
  head sep = Some c → c ∉ pre →
  split_from sep 0 cur (pre ++ rest) = split_from sep 0 (cur ++ pre) rest.
Proof.
  intros Hsep. revert cur. induction pre as [|x pre IH]; intros cur Hpre.
  { by rewrite app_nil_r. }
  apply not_elem_of_cons in Hpre as [Hx Hpre].
  destruct sep as [|w sep]; [done|]. injection Hsep as ->.
  cbn [app split_from Json.strip_prefix].
  assert ((c =? x) = false) as -> by (apply N.eqb_neq; congruence).
  rewrite IH by done. by rewrite <-app_assoc.
Qed.

(** A text without the separator is one piece. *)
Lemma split_from_absent (sep cur s : pystr) :
  sep ≠ [] →
  (∀ a b, s ≠ a ++ sep ++ b) →
  split_from sep 0 cur s = [cur ++ s].
Proof.
  intros Hsep. revert cur. induction s as [|c s IH]; intros cur Hs.
  { by rewrite app_nil_r. }
  cbn [split_from].
  destruct (Json.strip_prefix sep (c :: s)) as [b|] eqn:Hpre.
  - exfalso. apply (Hs [] b). simpl.
    clear -Hpre. revert Hpre. generalize (c :: s). clear.
    induction sep as [|w sep IH]; intros s; simpl; [by intros [= ->]|].
    destruct s as [|x s]; [done|].
    destruct (w =? x) eqn:Hw; [|done]. apply N.eqb_eq in Hw as ->.
    intros ->%IH. done.
  - rewrite IH; [by rewrite <-app_assoc|].
    intros a b ->. by apply (Hs (c :: a) b).
Qed.

Lemma split_slash_head (cur host rest : pystr) :
  slash ∉ host →
  (rest = [] ∨ ∃ path, rest = slash :: path) →
  head (split_from (py "/") 0 cur (host ++ rest)) = Some (cur ++ host).
Proof.
  intros Hhost Hrest.
  rewrite (split_from_skip_char (py "/") slash _ host); [|reflexivity|done].
  destruct Hrest as [->|[path ->]]; [done|].
  change (py "/") with [slash].
  cbn [split_from Json.strip_prefix]. by rewrite N.eqb_refl.
Qed.

Lemma split_slash_head_no_slash (s cur : pystr) :
  slash ∉ cur →
  ∃ piece, head (split_from (py "/") 0 cur s) = Some piece ∧ slash ∉ piece.
Proof.
  change (py "/") with [slash].
  revert cur. induction s as [|c s IH]; intros cur Hcur; [by exists cur|].
  cbn [split_from Json.strip_prefix].
  destruct (slash =? c) eqn:Hc; [by exists cur|].
  apply IH. rewrite elem_of_app, elem_of_cons.
  apply N.eqb_neq in Hc. intros [?|[?|?%elem_of_nil]]; done.
Qed.

Lemma strip_prefix_app (sep post : pystr) :
  Json.strip_prefix sep (sep ++ post) = Some post.
Proof. induction sep as [|c sep IH]; simpl; [done|]. by rewrite N.eqb_refl. Qed.

(** A text that holds [sep] holds it at one of its positions. *)
Lemma occurs_in_drop (sep s : pystr) :
  occurs_in sep s →
  existsb (λ n, bool_decide (is_Some (Json.strip_prefix sep (drop n s))))
    (seq 0 (S (length s))) = true.
Proof.
  intros (pre & post & ->). apply existsb_exists. exists (length pre). split.
  - apply in_seq. rewrite length_app. lia.
  - rewrite drop_app_length, strip_prefix_app. by apply bool_decide_eq_true_2.
Qed.

(** X17. The site name of the page. [site_of] holds no slash, and
    [safe_site_name] is it with every character that is neither a word
    character nor a hyphen replaced by an underscore, so it holds word
    characters and hyphens only and no dot. For a URL made of a scheme,
    two slashes, a host and a path that starts with a slash, the scheme
    and the host without a slash and no two slashes in a row after the
    host, the site is the host; so it is for a host and a path with no
    scheme. *)
Theorem site_name_of_url `{Runtime} (website_url : pystr) :
  (slash ∉ site_of website_url)
  ∧ length (safe_site_name website_url) = length (site_of website_url)
  ∧ Forall (λ c, is_word c = true ∨ c = chr "-") (safe_site_name website_url)
  ∧ (∀ scheme host path,
       website_url = scheme ++ py "//" ++ host ++ path →
       slash ∉ scheme → slash ∉ host →
       (path = [] ∨ ∃ rest, path = slash :: rest) →
       ¬ occurs_in (py "//") (host ++ path) →
       site_of website_url = host)
  ∧ (∀ host path,
       website_url = host ++ path →
       slash ∉ host →
       (path = [] ∨ ∃ rest, path = slash :: rest) →
       ¬ occurs_in (py "//") website_url →
       site_of website_url = host).
Proof.
  split_and!.
  - unfold site_of, split.
    destruct (split_slash_head_no_slash
                (default [] (last (split_from (py "//") 0 [] website_url))) [])
      as (piece & -> & Hpiece); [apply not_elem_of_nil|done].
  - unfold safe_site_name. by rewrite length_fmap.
  - unfold safe_site_name. apply Forall_fmap, Forall_true. intros c. simpl.
    destruct (is_word c || (c =? chr "-")) eqn:Hc.
    + apply orb_true_iff in Hc as [Hc|Hc]; [by left|right]. by apply N.eqb_eq.
    + left. unfold is_word. by rewrite N.eqb_refl, orb_true_r.
  - intros scheme host path -> Hscheme Hhost Hpath Hno.
    unfold site_of, split.
    rewrite (split_from_skip_char (py "//") slash _ scheme); [|reflexivity|done].
    change (py "//" ++ host ++ path) with (slash :: slash :: host ++ path).
    cbn [split_from Json.strip_prefix app].
    change (py "//") with [slash; slash]. cbn [Json.strip_prefix].
    rewrite !N.eqb_refl. cbn [length Nat.sub split_from].
    rewrite (split_from_absent [slash; slash] [] (host ++ path)); [|done|].
    2: { intros a b Hab. apply Hno. by exists a, b. }
    cbn [last default app].
    unfold id. by rewrite (split_slash_head [] host path Hhost Hpath).
  - intros host path -> Hhost Hpath Hno.
    unfold site_of, split. change (py "//") with [slash; slash].
    rewrite (split_from_absent [slash; slash] [] (host ++ path)); [|done|].
    2: { intros a b Hab. apply Hno. by exists a, b. }
    cbn [last default app].
    unfold id. by rewrite (split_slash_head [] host path Hhost Hpath).
Qed.

Lemma site_name_of_url_witness :
  site_of (py "https://example.com/pricing") = py "example.com".
Proof.
  destruct (site_name_of_url (H:=example_runtime) (py "https://example.com/pricing"))
    as (_ & _ & _ & Hsite & _).
  apply (Hsite (py "https:") (py "example.com") (py "/pricing")).
  - reflexivity.
  - compute_done.
  - compute_done.
  - right. by eexists.
  - intros Hocc%occurs_in_drop. vm_compute in Hocc. discriminate.
Defined.
